(** * Plagiarism checker: the duplicate-detection workflow of [main.py]

    A shallow embedding of the request handler [check_plagiarism] of
    [main.py] (and of its earlier variant in [app.py]) together with the
    helpers it calls: [validate_file], [extract_full_pdf_text] and
    [parse_chain_output].

    Modelling choices.
    - A Python [str] is a list of Unicode code points ([N]).
    - A similarity score is a finite float; it is only ever compared, with
      another score, with the integer [0] and with the literal [0.75]
      (which is a binary fraction), so it is modelled by the rational it
      denotes ([Q]).  Equality of scores is [Qeq].
    - A Python [dict] is a [gmap]; a value stored in it is a [pyval].
    - Exceptions are values of [exn]; a computation that may raise returns
      a [result].
    - The summarizer chain, the vector store and the PDF library are
      external services: each is a field of [Services], an oracle giving
      the outcome of the call.  The handler threads the list of calls it
      made (the [trace]) through a small state-and-error monad.
    - Calls to [logger] and [print] only write to the process log and are
      left out. *)

From Stdlib Require Import ZArith NArith QArith Qround Qabs Lqa String Ascii
  Lia Bool.
From stdpp Require Import base option list gmap.

Set Default Proof Using "Type".

(* ===================================================================== *)
(** ** Python values *)
(* ===================================================================== *)

Module Py.

(** A [str]: the sequence of its code points. *)
Definition pystr : Type := list N.

(** A string literal of the source. *)
Definition str (s : string) : pystr :=
  List.map N_of_ascii (list_ascii_of_string s).

(** The values that occur in a document's [metadata]. *)
Inductive pyval : Type :=
  | PNone
  | PStr (s : pystr)
  | PInt (z : Z).

#[export] Instance pyval_eq_dec : EqDecision pyval.
Proof. solve_decision. Defined.

(** Truth value of an object in a condition ([if x], [x and y]). *)
Definition truthy (v : pyval) : bool :=
  match v with
  | PNone => false
  | PStr s => match s with [] => false | _ :: _ => true end
  | PInt z => negb (z =? 0)%Z
  end.

(** [x in l] for a list [l]: some element compares equal to [x]. *)
Definition py_in (x : pyval) (l : list pyval) : bool :=
  bool_decide (x ∈ l).

(** [d.get(k)]: the value under [k], [None] when the key is absent. *)
Definition dict_get (d : gmap pystr pyval) (k : pystr) : pyval :=
  default PNone (d !! k).

(** Exceptions.  [HTTPException] is FastAPI's; the other constructors
    stand for the built-in exceptions and for whatever an external
    service raises.  All of them are subclasses of [Exception]. *)
Inductive exn : Type :=
  | HTTPException (status_code : Z) (detail : string)
  | ValueError (msg : string)
  | IndexError
  | FileDataError
  | OtherError (msg : string).

Inductive result (A : Type) : Type :=
  | Ok (a : A)
  | Raise (e : exn).
Arguments Ok {A} a.
Arguments Raise {A} e.

Definition is_HTTPException (e : exn) : bool :=
  match e with HTTPException _ _ => true | _ => false end.

(** *** [str] methods *)

(** [str.isspace] on one code point: the Unicode white space characters. *)
Definition isspace (c : N) : bool :=
  ((9 <=? c) && (c <=? 13) || (28 <=? c) && (c <=? 32)
   || (c =? 133) || (c =? 160) || (c =? 5760)
   || (8192 <=? c) && (c <=? 8202)
   || (c =? 8232) || (c =? 8233) || (c =? 8239) || (c =? 8287)
   || (c =? 12288))%N.

Fixpoint lstrip (s : pystr) : pystr :=
  match s with
  | [] => []
  | c :: s' => if isspace c then lstrip s' else s
  end.

Definition rstrip (s : pystr) : pystr := rev (lstrip (rev s)).

(** [s.strip()] *)
Definition strip (s : pystr) : pystr := rstrip (lstrip s).

(** [s.startswith(p)] *)
Fixpoint startswith (s p : pystr) : bool :=
  match p, s with
  | [], _ => true
  | _ :: _, [] => false
  | a :: p', b :: s' => (a =? b)%N && startswith s' p'
  end.

(** [s.endswith(p)] *)
Definition endswith (s p : pystr) : bool := startswith (rev s) (rev p).

(** [s.split(sep)] for a non-empty [sep] (every call in the source passes
    a literal): the text is scanned from the left; at an occurrence of
    [sep] the part read so far is closed and the scan resumes after the
    occurrence.  [skip] counts the characters of the current occurrence
    still to be passed over, [acc] holds the open part, reversed. *)
Fixpoint split_go (sep : pystr) (skip : nat) (acc : pystr) (s : pystr)
  : list pystr :=
  match s with
  | [] => [rev acc]
  | c :: s' =>
      match skip with
      | S k => split_go sep k acc s'
      | O =>
          if startswith s sep
          then rev acc :: split_go sep (length sep - 1) [] s'
          else split_go sep 0 (c :: acc) s'
      end
  end.

Definition split (s sep : pystr) : list pystr := split_go sep 0 [] s.

(** [s.replace(old, new)] for a non-empty [old]: every occurrence met by a
    scan from the left is replaced, and the scan resumes after it. *)
Fixpoint replace_go (old new : pystr) (skip : nat) (s : pystr) : pystr :=
  match s with
  | [] => []
  | c :: s' =>
      match skip with
      | S k => replace_go old new k s'
      | O =>
          if startswith s old
          then new ++ replace_go old new (length old - 1) s'
          else c :: replace_go old new 0 s'
      end
  end.

Definition replace (s old new : pystr) : pystr := replace_go old new 0 s.

(** [sep.join(parts)] *)
Fixpoint join (sep : pystr) (parts : list pystr) : pystr :=
  match parts with
  | [] => []
  | [p] => p
  | p :: ps => p ++ sep ++ join sep ps
  end.

(** [s.lower()], on the letters A-Z.  The handler only asks whether the
    lowered file name ends in [".pdf"], and no code point outside A-Z is
    lowered to one of [p], [d], [f] or [.]. *)
Definition lower_char (c : N) : N :=
  if ((65 <=? c) && (c <=? 90))%N then (c + 32)%N else c.

Definition lower (s : pystr) : pystr := List.map lower_char s.

(** [round(x, 4)]: the multiple of [1/10000] nearest to [x], ties going to
    the even multiple. *)
Definition round4 (x : Q) : Q :=
  let y := (x * 10000)%Q in
  let f := Qfloor y in
  let d := (y - inject_Z f)%Q in
  let n :=
    match (d ?= 1 # 2)%Q with
    | Lt => f
    | Gt => (f + 1)%Z
    | Eq => if Z.even f then f else (f + 1)%Z
    end in
  (inject_Z n / 10000)%Q.

End Py.


Import Py.

(** Notation for the two monads below: [x <~ m ; k] runs [m], binds its
    value to [x] and goes on with [k]; an exception raised by [m] ends the
    computation. *)
Declare Scope py_scope.
Delimit Scope py_scope with py.
Reserved Notation "x <~ m ; k"
  (at level 20, m at level 100, k at level 200).
Reserved Notation "' p <~ m ; k"
  (at level 20, p pattern, m at level 100, k at level 200).

(* ===================================================================== *)
(** ** Computations that may raise *)
(* ===================================================================== *)

Module Res.

Definition bind {A B} (m : result A) (k : A -> result B) : result B :=
  match m with
  | Ok a => k a
  | Raise e => Raise e
  end.

(** [try: m  except ...: h e] *)
Definition try_except {A} (m : result A) (h : exn -> result A) : result A :=
  match m with
  | Ok a => Ok a
  | Raise e => h e
  end.

End Res.

(* ===================================================================== *)
(** ** Documents, uploads, services and responses *)
(* ===================================================================== *)

(** [langchain_core.documents.Document] *)
Record Document : Type := {
  page_content : pystr;
  metadata : gmap pystr pyval
}.

(** One element of the list that [similarity_search_with_score] returns:
    the matched document and its score. *)
Definition scored : Type := Document * Q.

(** [fastapi.UploadFile]: the attributes the handler reads, and the bytes
    that [await file.read()] yields. *)
Record UploadFile : Type := {
  filename : option pystr;
  size : option Z;
  content_type : option pystr;
  file_bytes : list Byte.byte
}.

(** A call to an external service, as recorded in the trace. *)
Inductive event : Type :=
  | chain_invoke_called (text : pystr)
  | similarity_search_called (query : pystr) (k : Z)
  | add_documents_called (docs : list Document)
  | describe_index_stats_called.

(** The outcome of each external call during one request. *)
Record Services : Type := {
  (** [fitz.open(stream=..., filetype="pdf")] followed by
      [page.get_text] on every page: the texts of the pages. *)
  fitz_pages : list Byte.byte -> result (list pystr);
  (** [chain.invoke({"text": text})] *)
  chain_invoke : pystr -> result pystr;
  (** [vector_store.similarity_search_with_score(query, k=k)] *)
  similarity_search_with_score : pystr -> Z -> result (list scored);
  (** [vector_store.add_documents(docs)] *)
  add_documents : list Document -> result unit;
  (** [index.describe_index_stats()] *)
  describe_index_stats : result unit
}.

(** The state-and-error monad of the handler: the state is the list of
    service calls made so far, oldest first. *)
Module Req.

Definition trace : Type := list event.

Definition M (A : Type) : Type := trace -> result A * trace.

Definition ret {A} (a : A) : M A := fun t => (Ok a, t).

Definition raise {A} (e : exn) : M A := fun t => (Raise e, t).

Definition bind {A B} (m : M A) (k : A -> M B) : M B :=
  fun t =>
    match m t with
    | (Ok a, t') => k a t'
    | (Raise e, t') => (Raise e, t')
    end.

(** A computation without service calls. *)
Definition lift {A} (r : result A) : M A := fun t => (r, t).

(** A service call: it is recorded, then its outcome is returned or
    raised. *)
Definition call {A} (ev : event) (outcome : result A) : M A :=
  fun t => (outcome, t ++ [ev]).

(** [try: m  except ...: h e] *)
Definition try_except {A} (m : M A) (h : exn -> M A) : M A :=
  fun t =>
    match m t with
    | (Ok a, t') => (Ok a, t')
    | (Raise e, t') => h e t'
    end.

End Req.

Notation "x <~ m ; k" := (Res.bind m (fun x => k))
  (only parsing) : py_scope.
Notation "' p <~ m ; k" := (Res.bind m (fun p => k))
  (only parsing) : py_scope.

Declare Scope req_scope.
Delimit Scope req_scope with req.
Notation "x <~ m ; k" := (Req.bind m (fun x => k))
  (only parsing) : req_scope.
Notation "' p <~ m ; k" := (Req.bind m (fun p => k))
  (only parsing) : req_scope.

(** The body of a JSON response. *)
Module Json.

(** [response_data] of [main.py]. *)
Record response_data : Type := {
  plagiarism_detected : bool;
  max_score : Q;
  matched_files : list pyval;
  threshold : Q;
  document_added : bool
}.

(** The dictionary that [app.py] returns. *)
Record legacy_data : Type := {
  legacy_plagiarism_detected : bool;
  legacy_max_score : Q;
  legacy_matched_files : list pyval
}.

Inductive content : Type :=
  | Data (d : response_data)
  | LegacyData (d : legacy_data)
  | Detail (detail : string)
  | ServerError.

End Json.

(** [fastapi.responses.JSONResponse] *)
Record JSONResponse : Type := {
  status_code : Z;
  content : Json.content
}.

(* ===================================================================== *)
(** ** [main.py] *)
(* ===================================================================== *)

Module Main.

Definition MAX_FILE_SIZE : Z := 10 * 1024 * 1024.

(** The local [threshold] of [check_plagiarism]. *)
Definition threshold : Q := 0.75.

Definition SKILLS : pystr := str "SKILLS:".
Definition SUMMARY : pystr := str "SUMMARY:".

(** [validate_file(file)] *)
Definition validate_file (file : UploadFile) : result unit :=
  if match size file with
     | Some n => negb (n =? 0)%Z && (MAX_FILE_SIZE <? n)%Z
     | None => false
     end
  then Raise (HTTPException 413 "File size too large (max 10MB)")
  else
    match filename file with
    | None | Some [] => Raise (HTTPException 400 "Filename is required")
    | Some name =>
        if negb (endswith (lower name) (str ".pdf"))
        then Raise (HTTPException 400 "Only PDF files are supported")
        else
          if match content_type file with
             | None | Some [] => false
             | Some ct => negb (bool_decide (ct = str "application/pdf"))
             end
          then Raise (HTTPException 400
                        "Invalid content type. Expected application/pdf")
          else Ok tt
    end.

(** [parse_chain_output(output)] *)
Definition parse_chain_output (output : pystr) : result (pystr * pystr) :=
  Res.try_except
    (let parts := split output SKILLS in
     p0 <~ match parts !! 0%nat with Some p => Ok p | None => Raise IndexError end ;
     let summary_text := strip (replace p0 SUMMARY []) in
     skills <~ (if (1 <? length parts)%nat
                then match parts !! 1%nat with
                     | Some p => Ok (strip p)
                     | None => Raise IndexError
                     end
                else Ok []) ;
     match summary_text with
     | [] => Raise (ValueError "No summary found in chain output")
     | _ :: _ => Ok (summary_text, skills)
     end)%py
    (fun _ => Raise (HTTPException 500 "Failed to process document content")).

(** The loop of [check_plagiarism] over the search results (under
    [# Analyze results]): the three locals it updates, and one pass of
    its body. *)
Record locals : Type := {
  plagiarism_detected : bool;
  matched_files : list pyval;
  max_score : Q
}.

Definition analyze_step (threshold : Q) (st : locals) (r : scored) : locals :=
  let '(doc, score) := r in
  let max_score' :=
    if negb (Qle_bool score (max_score st)) then score else max_score st in
  if Qle_bool threshold score
  then
    let source_file := dict_get (metadata doc) (str "source_file") in
    {| plagiarism_detected := true;
       matched_files :=
         if truthy source_file && negb (py_in source_file (matched_files st))
         then matched_files st ++ [source_file]
         else matched_files st;
       max_score := max_score' |}
  else
    {| plagiarism_detected := plagiarism_detected st;
       matched_files := matched_files st;
       max_score := max_score' |}.

Definition analyze_results (threshold : Q) (results : list scored) : locals :=
  fold_left (analyze_step threshold) results
    {| plagiarism_detected := false; matched_files := []; max_score := 0 |}.

(** [new_doc] as [check_plagiarism] builds it. *)
Definition new_doc (file : UploadFile) (summary_text skills : pystr)
  : Document :=
  {| page_content := summary_text;
     metadata :=
       {[ str "source_file" :=
            match filename file with Some n => PStr n | None => PNone end;
          str "skills" := PStr skills;
          str "file_size" := PInt (Z.of_nat (length (file_bytes file))) ]} |}.

Section WithServices.

Variable sv : Services.

(** [extract_full_pdf_text(file_bytes)] *)
Definition extract_full_pdf_text (bytes : list Byte.byte) : result pystr :=
  Res.try_except
    (pages <~ fitz_pages sv bytes ;
     if (length pages =? 0)%nat
     then Raise (HTTPException 400 "PDF file contains no pages")
     else
       let text := join [10%N] pages in
       match strip text with
       | [] => Raise (HTTPException 400 "PDF file contains no extractable text")
       | _ :: _ => Ok text
       end)%py
    (fun e =>
       match e with
       | HTTPException _ _ => Raise e
       | FileDataError => Raise (HTTPException 400 "Invalid PDF file format")
       | _ => Raise (HTTPException 500 "Failed to extract text from PDF")
       end).

(** The [if not plagiarism_detected:] block: the insertion and the
    statistics call, any exception of which is swallowed. *)
Definition admit_document (doc : Document) : Req.M unit :=
  Req.try_except
    (_ <~ Req.call (add_documents_called [doc]) (add_documents sv [doc]) ;
     _ <~ Req.call describe_index_stats_called (describe_index_stats sv) ;
     Req.ret tt)%req
    (fun _ => Req.ret tt).

(** [check_plagiarism(file)] *)
Definition check_plagiarism (file : UploadFile) : Req.M JSONResponse :=
  Req.try_except
    (_ <~ Req.lift (validate_file file) ;
     let bytes := file_bytes file in
     full_text <~ Req.lift (extract_full_pdf_text bytes) ;
     output <~ Req.try_except
                 (Req.call (chain_invoke_called full_text)
                    (chain_invoke sv full_text))
                 (fun _ => Req.raise
                    (HTTPException 500
                       "Failed to process document with AI model")) ;
     ' (summary_text, skills) <~ Req.lift (parse_chain_output output) ;
     let doc := new_doc file summary_text skills in
     results <~ Req.try_except
                  (Req.call (similarity_search_called summary_text 3)
                     (similarity_search_with_score sv summary_text 3))
                  (fun _ => Req.raise
                     (HTTPException 500
                        "Failed to search for similar documents")) ;
     let st := analyze_results threshold results in
     _ <~ (if negb (plagiarism_detected st)
           then admit_document doc
           else Req.ret tt) ;
     Req.ret
       {| status_code := 200;
          content := Json.Data
            {| Json.plagiarism_detected := plagiarism_detected st;
               Json.max_score := round4 (max_score st);
               Json.matched_files := matched_files st;
               Json.threshold := threshold;
               Json.document_added := negb (plagiarism_detected st) |} |})%req
    (fun e =>
       if is_HTTPException e then Req.raise e
       else Req.raise (HTTPException 500 "Internal server error")).

(** [file_too_large_handler], registered for status 413. *)
Definition file_too_large_handler : JSONResponse :=
  {| status_code := 413; content := Json.Detail "File too large" |}.

(** What the application answers to [POST /check-plagiarism] once the
    upload has reached the handler: the handler's response, or the
    response FastAPI builds from the [HTTPException] it raised (through
    [file_too_large_handler] for status 413), together with the service
    calls made. *)
Definition post_check_plagiarism (file : UploadFile)
  : JSONResponse * Req.trace :=
  match check_plagiarism file [] with
  | (Ok response, t) => (response, t)
  | (Raise (HTTPException code detail), t) =>
      (if (code =? 413)%Z then file_too_large_handler
       else {| status_code := code; content := Json.Detail detail |}, t)
  | (Raise _, t) => ({| status_code := 500; content := Json.ServerError |}, t)
  end.

End WithServices.

End Main.

(* ===================================================================== *)
(** ** [app.py], the earlier variant of the handler *)
(* ===================================================================== *)

Module App.

Import Main.

(** One pass of the loop over the search results: no test of the source
    file, no test for a file already listed. *)
Definition analyze_step (st : locals) (r : scored) : locals :=
  let '(doc, score) := r in
  let max_score' :=
    if negb (Qle_bool score (max_score st)) then score else max_score st in
  if Qle_bool 0.75 score
  then
    {| plagiarism_detected := true;
       matched_files :=
         matched_files st ++ [dict_get (metadata doc) (str "source_file")];
       max_score := max_score' |}
  else
    {| plagiarism_detected := plagiarism_detected st;
       matched_files := matched_files st;
       max_score := max_score' |}.

Definition analyze_results (results : list scored) : locals :=
  fold_left analyze_step results
    {| plagiarism_detected := false; matched_files := []; max_score := 0 |}.

(** The three lines that split the chain output, inline in the handler. *)
Definition parse_inline (output : pystr) : result (pystr * pystr) :=
  (let parts := split output (str "SKILLS:") in
   p0 <~ match parts !! 0%nat with Some p => Ok p | None => Raise IndexError end ;
   let summary_text := strip (replace p0 (str "SUMMARY:") []) in
   skills <~ (if (1 <? length parts)%nat
              then match parts !! 1%nat with
                   | Some p => Ok (strip p)
                   | None => Raise IndexError
                   end
              else Ok []) ;
   Ok (summary_text, skills))%py.

Definition new_doc (file : UploadFile) (summary_text skills : pystr)
  : Document :=
  {| page_content := summary_text;
     metadata :=
       {[ str "source_file" :=
            match filename file with Some n => PStr n | None => PNone end;
          str "skills" := PStr skills ]} |}.

Section WithServices.

Variable sv : Services.

(** [extract_full_pdf_text(file_bytes)] *)
Definition extract_full_pdf_text (bytes : list Byte.byte) : result pystr :=
  (pages <~ fitz_pages sv bytes ;
   Ok (join [10%N] pages))%py.

(** [check_plagiarism(file)] *)
Definition check_plagiarism (file : UploadFile) : Req.M JSONResponse :=
  (let bytes := file_bytes file in
   full_text <~ Req.lift (extract_full_pdf_text bytes) ;
   output <~ Req.call (chain_invoke_called full_text)
               (chain_invoke sv full_text) ;
   ' (summary_text, skills) <~ Req.lift (parse_inline output) ;
   let doc := new_doc file summary_text skills in
   results <~ Req.call (similarity_search_called summary_text 3)
                (similarity_search_with_score sv summary_text 3) ;
   let st := analyze_results results in
   _ <~ (if negb (plagiarism_detected st)
         then
           _ <~ Req.call (add_documents_called [doc])
                  (add_documents sv [doc]) ;
           _ <~ Req.call describe_index_stats_called
                  (describe_index_stats sv) ;
           Req.ret tt
         else Req.ret tt) ;
   Req.ret
     {| status_code := 200;
        content := Json.LegacyData
          {| Json.legacy_plagiarism_detected := plagiarism_detected st;
             Json.legacy_max_score := max_score st;
             Json.legacy_matched_files := matched_files st |} |})%req.

(** The answer to [POST /check-plagiarism]: an exception that leaves the
    handler becomes a response with status 500, unless it is an
    [HTTPException], which carries its own status. *)
Definition post_check_plagiarism (file : UploadFile)
  : JSONResponse * Req.trace :=
  match check_plagiarism file [] with
  | (Ok response, t) => (response, t)
  | (Raise (HTTPException code detail), t) =>
      ({| status_code := code; content := Json.Detail detail |}, t)
  | (Raise _, t) => ({| status_code := 500; content := Json.ServerError |}, t)
  end.

End WithServices.

End App.

(* ===================================================================== *)
(** ** The specification's vocabulary *)
(* ===================================================================== *)

Module Spec.

(** [sub] occurs in [s] at index [i]. *)
Definition occurs_at (sub s : pystr) (i : nat) : Prop :=
  exists pre post, s = pre ++ sub ++ post /\ length pre = i.

(** The index of the first occurrence of [sub] in [s], if there is one. *)
Fixpoint find (s sub : pystr) : option nat :=
  if startswith s sub then Some 0%nat
  else match s with
       | [] => None
       | _ :: s' => S <$> find s' sub
       end.

(** The text before the first occurrence of [marker]; all of [s] when
    there is none. *)
Definition before_first (marker s : pystr) : pystr :=
  match find s marker with
  | Some i => take i s
  | None => s
  end.

(** The text after the first occurrence of [marker], when there is one. *)
Definition after_first (marker s : pystr) : option pystr :=
  match find s marker with
  | Some i => Some (drop (i + length marker) s)
  | None => None
  end.

(** The summary: the text before the first [SKILLS:], without the marker
    [SUMMARY:], trimmed. *)
Definition summary_of (output : pystr) : pystr :=
  strip (replace (before_first Main.SKILLS output) Main.SUMMARY []).

(** The skills as the specification words them: all the text after the
    first [SKILLS:], trimmed; empty without the marker. *)
Definition skills_after_first (output : pystr) : pystr :=
  match after_first Main.SKILLS output with
  | Some rest => strip rest
  | None => []
  end.

(** The skills up to a second [SKILLS:]: the text between the first
    occurrence of the marker and the next one (or the end), trimmed. *)
Definition skills_between (output : pystr) : pystr :=
  match after_first Main.SKILLS output with
  | Some rest => strip (before_first Main.SKILLS rest)
  | None => []
  end.

(** A list without its repetitions: of equal values the first is kept. *)
Fixpoint first_occurrences (l : list pyval) : list pyval :=
  match l with
  | [] => []
  | x :: l' => x :: List.filter (fun y => negb (bool_decide (y = x)))
                      (first_occurrences l')
  end.

(** [matchedSourceFile] and [score] of a match. *)
Definition matchedSourceFile (r : scored) : pyval :=
  dict_get (metadata r.1) (str "source_file").

Definition score (r : scored) : Q := r.2.

Definition reaches (threshold : Q) (r : scored) : bool :=
  Qle_bool threshold (score r).

(** [matchedFiles] as the specification words it. *)
Definition matchedFiles_as_claimed (threshold : Q) (results : list scored)
  : list pyval :=
  first_occurrences
    (List.map matchedSourceFile (List.filter (reaches threshold) results)).

(** [matchedFiles] restricted to the matches that carry a source file. *)
Definition matchedFiles_named (threshold : Q) (results : list scored)
  : list pyval :=
  first_occurrences
    (List.filter truthy
       (List.map matchedSourceFile (List.filter (reaches threshold) results))).

(** The number of insertions into the corpus recorded in a trace. *)
Definition insertions (t : Req.trace) : nat :=
  length (List.filter
            (fun ev => match ev with add_documents_called _ => true | _ => false end)
            t).

(** The request up to the search: the upload is valid, the text is
    extracted, the chain output is parsed and the search is answered. *)
Definition reaches_decision (sv : Services) (file : UploadFile)
    (text output summary skills : pystr) (results : list scored) : Prop :=
  Main.validate_file file = Ok tt
  /\ Main.extract_full_pdf_text sv (file_bytes file) = Ok text
  /\ chain_invoke sv text = Ok output
  /\ Main.parse_chain_output output = Ok (summary, skills)
  /\ similarity_search_with_score sv summary 3 = Ok results.

(** The same services, except for the outcome of the insertion. *)
Definition with_insertion (sv : Services) (insertion : result unit)
  : Services :=
  {| fitz_pages := fitz_pages sv;
     chain_invoke := chain_invoke sv;
     similarity_search_with_score := similarity_search_with_score sv;
     add_documents := fun _ => insertion;
     describe_index_stats := describe_index_stats sv |}.

(** The upload has no file name: the attribute is [None] or empty. *)
Definition filename_missing (file : UploadFile) : Prop :=
  filename file = None \/ filename file = Some [].

(** The upload announces a size above the limit. *)
Definition announces_oversize (file : UploadFile) : Prop :=
  exists n, size file = Some n /\ (Main.MAX_FILE_SIZE < n)%Z.

(** The response of [main.py] once the search has answered [results]. *)
Definition decision_response (results : list scored) : JSONResponse :=
  let st := Main.analyze_results Main.threshold results in
  {| status_code := 200;
     content := Json.Data
       {| Json.plagiarism_detected := Main.plagiarism_detected st;
          Json.max_score := round4 (Main.max_score st);
          Json.matched_files := Main.matched_files st;
          Json.threshold := Main.threshold;
          Json.document_added := negb (Main.plagiarism_detected st) |} |}.

(** The calls to the vector store that follow the decision. *)
Definition admission_calls (sv : Services) (doc : Document)
    (results : list scored) : Req.trace :=
  if Main.plagiarism_detected (Main.analyze_results Main.threshold results)
  then []
  else add_documents_called [doc]
       :: match add_documents sv [doc] with
          | Ok _ => [describe_index_stats_called]
          | Raise _ => []
          end.

(** The same upload with other bytes behind it. *)
Definition with_bytes (file : UploadFile) (bytes : list Byte.byte)
  : UploadFile :=
  {| filename := filename file;
     size := size file;
     content_type := content_type file;
     file_bytes := bytes |}.

End Spec.

(* ===================================================================== *)
(** ** Concrete requests *)
(* ===================================================================== *)

Module Demo.

(** A stored document whose metadata holds [source_file] only. *)
Definition stored (source_file : pystr) : Document :=
  {| page_content := str "earlier summary";
     metadata := {[ str "source_file" := PStr source_file ]} |}.

Definition A : pystr := str "A.pdf".
Definition B : pystr := str "B.pdf".

(** ["SUMMARY:\nfoo\n\nSKILLS:\nbar,baz"] *)
Definition output_full : pystr :=
  str "SUMMARY:" ++ [10%N] ++ str "foo" ++ [10%N; 10%N]
    ++ str "SKILLS:" ++ [10%N] ++ str "bar,baz".

(** ["SUMMARY:\nfoo"] *)
Definition output_no_skills : pystr := str "SUMMARY:" ++ [10%N] ++ str "foo".

(** ["SUMMARY:\n"] *)
Definition output_empty : pystr := str "SUMMARY:" ++ [10%N].

(** ["SUMMARY:\nfoo\nSKILLS:\nbar\nSKILLS:\nbaz"] *)
Definition output_two_markers : pystr :=
  str "SUMMARY:" ++ [10%N] ++ str "foo" ++ [10%N]
    ++ str "SKILLS:" ++ [10%N] ++ str "bar" ++ [10%N]
    ++ str "SKILLS:" ++ [10%N] ++ str "baz".

(** An upload named [test.pdf]. *)
Definition upload : UploadFile :=
  {| filename := Some (str "test.pdf");
     size := Some 4%Z;
     content_type := Some (str "application/pdf");
     file_bytes := [Byte.x25; Byte.x50; Byte.x44; Byte.x46] |}.

(** An upload without a file name. *)
Definition upload_unnamed : UploadFile :=
  {| filename := None;
     size := Some 4%Z;
     content_type := Some (str "application/pdf");
     file_bytes := [Byte.x25; Byte.x50; Byte.x44; Byte.x46] |}.

(** An upload whose [size] attribute is not set. *)
Definition upload_unsized : UploadFile :=
  {| filename := Some (str "test.pdf");
     size := None;
     content_type := Some (str "application/pdf");
     file_bytes := [Byte.x25; Byte.x50; Byte.x44; Byte.x46] |}.

(** An upload announcing one byte more than the limit. *)
Definition upload_oversized : UploadFile :=
  {| filename := Some (str "test.pdf");
     size := Some (10 * 1024 * 1024 + 1)%Z;
     content_type := Some (str "application/pdf");
     file_bytes := [Byte.x25; Byte.x50; Byte.x44; Byte.x46] |}.

(** Services for one request: the PDF has one page of text, the chain
    answers [output], the search returns [results] and the insertion ends
    as [insertion] says. *)
Definition services (output : pystr) (results : list scored)
    (insertion : result unit) : Services :=
  {| fitz_pages := fun _ => Ok [str "1.1 Purpose: testing"];
     chain_invoke := fun _ => Ok output;
     similarity_search_with_score := fun _ _ => Ok results;
     add_documents := fun _ => insertion;
     describe_index_stats := Ok tt |}.

Definition vector_store_failure : result unit :=
  Raise (OtherError "Vector store failure").

(** Search results. *)
Definition below_threshold : list scored := [(stored A, 0.5%Q); (stored B, 0.3%Q)].
Definition at_threshold : list scored := [(stored A, 0.75%Q)].
Definition same_file_twice : list scored := [(stored A, 0.9%Q); (stored A, 0.9%Q)].
Definition two_files : list scored := [(stored B, 0.8%Q); (stored A, 0.76%Q)].
Definition unnamed_match : list scored := [(stored [], 0.9%Q)].

(** The request of the test [test_vector_store_add_failure], with two
    matches below the threshold: the insertion raises. *)
Definition failing_store : Services :=
  services output_full below_threshold vector_store_failure.

(** The text that [failing_store] extracts from any upload. *)
Definition page_text : pystr := str "1.1 Purpose: testing".

End Demo.

(* ===================================================================== *)
(** ** Start of the application: the module-level code *)
(* ===================================================================== *)

Module Startup.

(** A call to the Pinecone client while the module is loaded. *)
Inductive event : Type :=
  | Pinecone_called (api_key : option pystr)
  | has_index_called (name : pystr)
  | create_index_called (name : pystr) (dimension : Z)
      (metric cloud region : pystr)
  | Index_called (name : pystr)
  | PineconeVectorStore_called.

(** The process environment and the outcome of each constructor and
    client call made at import time. *)
Record Platform : Type := {
  (** [os.getenv(name)] after [load_dotenv()] *)
  getenv : pystr -> option pystr;
  (** [ChatOpenAI(...)], [OpenAIEmbeddings(...)], [StrOutputParser()] and
      [PromptTemplate(...)] *)
  clients : option pystr -> result unit;
  (** [Pinecone(api_key=...)] *)
  Pinecone : option pystr -> result unit;
  (** [pc.has_index(name)] *)
  has_index : pystr -> result bool;
  (** [pc.create_index(name=..., dimension=..., metric=..., spec=...)] *)
  create_index : pystr -> Z -> pystr -> pystr -> pystr -> result unit;
  (** [pc.Index(name)] *)
  Index : pystr -> result unit;
  (** [PineconeVectorStore(index=index, embedding=embeddings)] *)
  PineconeVectorStore : result unit
}.

Definition trace : Type := list event.

Definition M (A : Type) : Type := trace -> result A * trace.

Definition ret {A} (a : A) : M A := fun t => (Ok a, t).

Definition raise {A} (e : exn) : M A := fun t => (Raise e, t).

Definition bind {A B} (m : M A) (k : A -> M B) : M B :=
  fun t =>
    match m t with
    | (Ok a, t') => k a t'
    | (Raise e, t') => (Raise e, t')
    end.

Definition lift {A} (r : result A) : M A := fun t => (r, t).

Definition call {A} (ev : event) (outcome : result A) : M A :=
  fun t => (outcome, t ++ [ev]).

Definition try_except {A} (m : M A) (h : exn -> M A) : M A :=
  fun t =>
    match m t with
    | (Ok a, t') => (Ok a, t')
    | (Raise e, t') => h e t'
    end.

Declare Scope startup_scope.
Delimit Scope startup_scope with startup.
Notation "x <~ m ; k" := (bind m (fun x => k))
  (only parsing) : startup_scope.

(** [not key] for the result of [os.getenv]. *)
Definition unset (key : option pystr) : bool :=
  match key with
  | None | Some [] => true
  | Some (_ :: _) => false
  end.

Definition index_name : pystr := str "plagiarism-detection".

(** The vector store setup, shared by the two files: the index is created
    when the client says that it does not exist. *)
Definition vector_store_setup (p : Platform) (pinecone_api_key : option pystr)
  : M unit :=
  (_ <~ call (Pinecone_called pinecone_api_key)
          (Pinecone p pinecone_api_key) ;
   present <~ call (has_index_called index_name) (has_index p index_name) ;
   _ <~ (if negb present
         then call (create_index_called index_name 1536 (str "cosine")
                      (str "aws") (str "us-east-1"))
                (create_index p index_name 1536 (str "cosine")
                   (str "aws") (str "us-east-1"))
         else ret tt) ;
   _ <~ call (Index_called index_name) (Index p index_name) ;
   call PineconeVectorStore_called (PineconeVectorStore p))%startup.

(** The module-level code of [main.py], up to [chain = ...]. *)
Definition main_py (p : Platform) : M unit :=
  (let openai_api_key := getenv p (str "OPENAI_API") in
   let pinecone_api_key := getenv p (str "PINECONE_API") in
   _ <~ (if unset openai_api_key
         then raise (ValueError "OPENAI_API environment variable is required")
         else ret tt) ;
   _ <~ (if unset pinecone_api_key
         then raise (ValueError
                       "PINECONE_API environment variable is required")
         else ret tt) ;
   _ <~ lift (clients p openai_api_key) ;
   try_except (vector_store_setup p pinecone_api_key)
     (fun e => raise e))%startup.

(** The module-level code of [app.py], up to [chain = ...]. *)
Definition app_py (p : Platform) : M unit :=
  (let openai_api_key := getenv p (str "OPENAI_API") in
   let pinecone_api_key := getenv p (str "PINECONE_API") in
   _ <~ lift (clients p openai_api_key) ;
   vector_store_setup p pinecone_api_key)%startup.

(** The number of index creations recorded in a trace. *)
Definition creations (t : trace) : nat :=
  length (List.filter
            (fun ev =>
               match ev with create_index_called _ _ _ _ _ => true | _ => false end)
            t).

End Startup.

(* ===================================================================== *)
(** ** Further vocabulary and concrete cases *)
(* ===================================================================== *)

Module Cases.

(** The answer format that the prompt asks for:
    ["SUMMARY:\n<summary>\n\nSKILLS:\n<skills>"]. *)
Definition formatted (summary skills : pystr) : pystr :=
  Main.SUMMARY ++ [10%N] ++ summary ++ [10%N; 10%N]
    ++ Main.SKILLS ++ [10%N] ++ skills.

(** [marker] occurs nowhere in [s]. *)
Definition free_of (marker s : pystr) : Prop :=
  forall j, ~ Spec.occurs_at marker s j.

(** [s] has no white space at either end. *)
Definition trimmed (s : pystr) : Prop :=
  (forall c, head s = Some c -> isspace c = false)
  /\ (forall c, last s = Some c -> isspace c = false).

(** A file name that ends in [.pdf], in any mix of upper and lower case. *)
Definition pdf_name (name : pystr) : Prop :=
  exists stem p d f,
    name = stem ++ [46%N; p; d; f]
    /\ (p = 80%N \/ p = 112%N)
    /\ (d = 68%N \/ d = 100%N)
    /\ (f = 70%N \/ f = 102%N).

(** A content type that [validate_file] lets through. *)
Definition acceptable_content_type (ct : option pystr) : Prop :=
  ct = None \/ ct = Some [] \/ ct = Some (str "application/pdf").

(** The sequences of service calls of one request of [main.py]. *)
Inductive call_sequence : Req.trace -> Prop :=
  | no_call : call_sequence []
  | until_chain text : call_sequence [chain_invoke_called text]
  | until_search text query :
      call_sequence
        [chain_invoke_called text; similarity_search_called query 3]
  | until_insertion text query doc :
      call_sequence
        [chain_invoke_called text; similarity_search_called query 3;
         add_documents_called [doc]]
  | until_stats text query doc :
      call_sequence
        [chain_invoke_called text; similarity_search_called query 3;
         add_documents_called [doc]; describe_index_stats_called].

(** The request of [app.py] up to the search. *)
Definition legacy_reaches_decision (sv : Services) (file : UploadFile)
    (text output : pystr) (results : list scored) : Prop :=
  App.extract_full_pdf_text sv (file_bytes file) = Ok text
  /\ chain_invoke sv text = Ok output
  /\ similarity_search_with_score sv (Spec.summary_of output) 3 = Ok results.

(** An environment with both keys, and a Pinecone account that answers
    [present] to [has_index]. *)
Definition platform (present : bool) : Startup.Platform :=
  {| Startup.getenv := fun name =>
       if bool_decide (name = str "OPENAI_API") then Some (str "sk-1")
       else if bool_decide (name = str "PINECONE_API") then Some (str "pc-1")
       else None;
     Startup.clients := fun _ => Ok tt;
     Startup.Pinecone := fun _ => Ok tt;
     Startup.has_index := fun _ => Ok present;
     Startup.create_index := fun _ _ _ _ _ => Ok tt;
     Startup.Index := fun _ => Ok tt;
     Startup.PineconeVectorStore := Ok tt |}.

(** An environment with both keys, and a Pinecone account that cannot
    answer [has_index]. *)
Definition platform_unreachable : Startup.Platform :=
  {| Startup.getenv := fun name =>
       if bool_decide (name = str "OPENAI_API") then Some (str "sk-1")
       else if bool_decide (name = str "PINECONE_API") then Some (str "pc-1")
       else None;
     Startup.clients := fun _ => Ok tt;
     Startup.Pinecone := fun _ => Ok tt;
     Startup.has_index := fun _ => Raise (OtherError "unreachable");
     Startup.create_index := fun _ _ _ _ _ => Ok tt;
     Startup.Index := fun _ => Ok tt;
     Startup.PineconeVectorStore := Ok tt |}.

(** An environment in which [PINECONE_API] is not set. *)
Definition platform_without_pinecone_key : Startup.Platform :=
  {| Startup.getenv := fun name =>
       if bool_decide (name = str "OPENAI_API") then Some (str "sk-1")
       else None;
     Startup.clients := fun _ => Ok tt;
     Startup.Pinecone := fun _ => Ok tt;
     Startup.has_index := fun _ => Ok true;
     Startup.create_index := fun _ _ _ _ _ => Ok tt;
     Startup.Index := fun _ => Ok tt;
     Startup.PineconeVectorStore := Ok tt |}.

(** An upload whose multipart part carries an empty file name
    ([filename=""]). *)
Definition upload_empty_name : UploadFile :=
  {| filename := Some [];
     size := Some 4%Z;
     content_type := Some (str "application/pdf");
     file_bytes := [Byte.x25; Byte.x50; Byte.x44; Byte.x46] |}.

(** Services whose chain raises. *)
Definition chain_down : Services :=
  {| fitz_pages := fun _ => Ok [str "1.1 Purpose: testing"];
     chain_invoke := fun _ => Raise (OtherError "Chain processing failed");
     similarity_search_with_score := fun _ _ => Ok [];
     add_documents := fun _ => Ok tt;
     describe_index_stats := Ok tt |}.

(** Services whose search raises. *)
Definition search_down : Services :=
  {| fitz_pages := fun _ => Ok [str "1.1 Purpose: testing"];
     chain_invoke := fun _ => Ok Demo.output_full;
     similarity_search_with_score :=
       fun _ _ => Raise (OtherError "search failed");
     add_documents := fun _ => Ok tt;
     describe_index_stats := Ok tt |}.

(** Services whose statistics call raises after a successful insertion. *)
Definition stats_down : Services :=
  {| fitz_pages := fun _ => Ok [str "1.1 Purpose: testing"];
     chain_invoke := fun _ => Ok Demo.output_full;
     similarity_search_with_score := fun _ _ => Ok Demo.below_threshold;
     add_documents := fun _ => Ok tt;
     describe_index_stats := Raise (OtherError "stats failed") |}.

(** A best match whose score lies halfway between two multiples of
    0.0001: below an odd one, and below an even one. *)
Definition halfway_up : list scored := [(Demo.stored Demo.A, 0.12355%Q)].
Definition halfway_down : list scored := [(Demo.stored Demo.A, 0.12345%Q)].

(** Matches with negative scores. *)
Definition opposite : list scored :=
  [(Demo.stored Demo.A, (-1 # 2)%Q); (Demo.stored Demo.B, (-1 # 4)%Q)].

(** The same two matches in the two orders. *)
Definition ranked : list scored :=
  [(Demo.stored Demo.B, 0.8%Q); (Demo.stored Demo.A, 0.76%Q)].
Definition unranked : list scored :=
  [(Demo.stored Demo.A, 0.76%Q); (Demo.stored Demo.B, 0.8%Q)].

End Cases.


(* ===================================================================== *)
(** ** The loop over the search results *)
(* ===================================================================== *)

Section Analysis.

Import Main.

Variable t : Q.

Lemma Qle_bool_false (x y : Q) : Qle_bool x y = false -> (y < x)%Q.
Proof.
  intros H. apply Qnot_le_lt. intros Hle.
  apply Qle_bool_iff in Hle. congruence.
Qed.

Lemma analyze_step_detected (st : locals) (r : scored) :
  plagiarism_detected (analyze_step t st r)
  = plagiarism_detected st || Spec.reaches t r.
Proof.
  destruct r as [doc sc]. unfold analyze_step, Spec.reaches, Spec.score. simpl.
  destruct (Qle_bool t sc); simpl.
  - now rewrite orb_true_r.
  - now rewrite orb_false_r.
Qed.

Lemma analyze_step_max (st : locals) (r : scored) :
  max_score (analyze_step t st r)
  = if negb (Qle_bool (Spec.score r) (max_score st))
    then Spec.score r else max_score st.
Proof.
  destruct r as [doc sc]. unfold analyze_step, Spec.score. simpl.
  now destruct (Qle_bool t sc).
Qed.

Lemma analyze_step_files (st : locals) (r : scored) :
  matched_files (analyze_step t st r)
  = if Spec.reaches t r && truthy (Spec.matchedSourceFile r)
       && negb (py_in (Spec.matchedSourceFile r) (matched_files st))
    then matched_files st ++ [Spec.matchedSourceFile r]
    else matched_files st.
Proof.
  destruct r as [doc sc].
  unfold analyze_step, Spec.reaches, Spec.score, Spec.matchedSourceFile. simpl.
  now destruct (Qle_bool t sc).
Qed.

(** The flag is raised by the first match that reaches the threshold and
    never lowered. *)
Lemma fold_detected (results : list scored) (st : locals) :
  plagiarism_detected (fold_left (analyze_step t) results st)
  = plagiarism_detected st || existsb (Spec.reaches t) results.
Proof.
  revert st. induction results as [|r results IH]; intros st; simpl.
  - now rewrite orb_false_r.
  - rewrite IH, analyze_step_detected. now rewrite orb_assoc.
Qed.

(** The running maximum: it never decreases, it bounds every score seen,
    and it is the initial value or one of the scores. *)
Lemma fold_max (results : list scored) (st : locals) :
  let m := max_score (fold_left (analyze_step t) results st) in
  (max_score st <= m)%Q
  /\ (forall r, r ∈ results -> (Spec.score r <= m)%Q)
  /\ (m = max_score st \/ exists r, r ∈ results /\ m = Spec.score r).
Proof.
  revert st. induction results as [|r results IH]; intros st; simpl.
  - split; [apply Qle_refl|]. split; [|now left].
    intros r Hr. inversion Hr.
  - destruct (IH (analyze_step t st r)) as (Hge & Hall & Hsrc).
    rewrite analyze_step_max in Hge, Hsrc.
    destruct (Qle_bool (Spec.score r) (max_score st)) eqn:Hcmp; simpl in *.
    + split; [exact Hge|]. split.
      * intros r' Hr'. apply elem_of_cons in Hr' as [->|Hr'].
        -- apply Qle_bool_iff in Hcmp. eapply Qle_trans; eauto.
        -- now apply Hall.
      * destruct Hsrc as [Hsrc|(r' & Hr' & Hsrc)]; [now left|].
        right. exists r'. split; [now apply elem_of_cons; right|exact Hsrc].
    + apply Qle_bool_false in Hcmp. split.
      * eapply Qle_trans; [apply Qlt_le_weak, Hcmp|exact Hge].
      * split.
        -- intros r' Hr'. apply elem_of_cons in Hr' as [->|Hr'].
           ++ exact Hge.
           ++ now apply Hall.
        -- right. destruct Hsrc as [Hsrc|(r' & Hr' & Hsrc)].
           ++ exists r. split; [apply elem_of_cons; now left|exact Hsrc].
           ++ exists r'. split; [now apply elem_of_cons; right|exact Hsrc].
Qed.

(** The running maximum does not look at the threshold. *)
Lemma fold_max_threshold (t' : Q) (results : list scored) (st st' : locals) :
  max_score st = max_score st' ->
  max_score (fold_left (analyze_step t) results st)
  = max_score (fold_left (analyze_step t') results st').
Proof.
  revert st st'. induction results as [|r results IH]; intros st st' H; simpl.
  - exact H.
  - apply IH. destruct r as [doc sc]. unfold analyze_step.
    destruct (Qle_bool t sc), (Qle_bool t' sc); simpl; now rewrite H.
Qed.

End Analysis.

(* ===================================================================== *)
(** ** Lists without repetitions *)
(* ===================================================================== *)

Section FirstOccurrences.

Import Main.

Lemma filter_twice {A} (p q : A -> bool) (l : list A) :
  List.filter p (List.filter q l) = List.filter (fun y => q y && p y) l.
Proof.
  induction l as [|a l IH]; simpl; [reflexivity|].
  destruct (q a); simpl; [destruct (p a)|]; now rewrite IH.
Qed.

Lemma filter_same {A} (p q : A -> bool) (l : list A) :
  (forall a, p a = q a) -> List.filter p l = List.filter q l.
Proof. intros H. apply List.filter_ext_in. intros a _. apply H. Qed.

Lemma elem_of_filter_bool {A} (p : A -> bool) (l : list A) (a : A) :
  a ∈ List.filter p l <-> a ∈ l /\ p a = true.
Proof. rewrite !list_elem_of_In. apply List.filter_In. Qed.

Lemma py_in_snoc (y x : pyval) (acc : list pyval) :
  py_in y (acc ++ [x]) = py_in y acc || bool_decide (y = x).
Proof.
  unfold py_in. apply eq_true_iff_eq.
  rewrite orb_true_iff, !bool_decide_eq_true, elem_of_app, list_elem_of_singleton.
  reflexivity.
Qed.

Lemma elem_of_first_occurrences (l : list pyval) (y : pyval) :
  y ∈ Spec.first_occurrences l <-> y ∈ l.
Proof.
  induction l as [|x l IH]; simpl; [reflexivity|].
  rewrite !elem_of_cons, elem_of_filter_bool, IH, negb_true_iff,
    bool_decide_eq_false.
  destruct (decide (y = x)); tauto.
Qed.

Lemma NoDup_filter_bool {A} (p : A -> bool) (l : list A) :
  NoDup l -> NoDup (List.filter p l).
Proof.
  induction 1 as [|a l Hnotin Hnd IH]; simpl; [constructor|].
  destruct (p a); [|exact IH].
  constructor; [|exact IH].
  rewrite elem_of_filter_bool. tauto.
Qed.

Lemma NoDup_first_occurrences (l : list pyval) :
  NoDup (Spec.first_occurrences l).
Proof.
  induction l as [|x l IH]; simpl; constructor.
  - rewrite elem_of_filter_bool, negb_true_iff, bool_decide_eq_false. tauto.
  - now apply NoDup_filter_bool.
Qed.

(** A list that already has no repetition is left as it is. *)
Lemma first_occurrences_NoDup (l : list pyval) :
  NoDup l -> Spec.first_occurrences l = l.
Proof.
  induction 1 as [|x l Hnotin Hnd IH]; simpl; [reflexivity|].
  rewrite IH. f_equal.
  rewrite <- (List.filter_ext_in (fun _ => true)).
  - clear. induction l as [|a l IHl]; simpl; congruence.
  - intros a Ha. symmetry. apply negb_true_iff, bool_decide_eq_false.
    intros ->. now apply Hnotin, list_elem_of_In.
Qed.

Variable t : Q.

(** The list of matched files after the loop: the files listed before it,
    then the new ones in the order of their first match. *)
Lemma fold_files (results : list scored) (st : locals) :
  matched_files (fold_left (analyze_step t) results st)
  = matched_files st
    ++ List.filter (fun y => negb (py_in y (matched_files st)))
         (Spec.matchedFiles_named t results).
Proof.
  revert st. induction results as [|r results IH]; intros st.
  - simpl. now rewrite app_nil_r.
  - cbn [fold_left]. rewrite IH, analyze_step_files.
    unfold Spec.matchedFiles_named. cbn [List.filter].
    destruct (Spec.reaches t r) eqn:Hreach; cbn [andb List.map List.filter];
      [|reflexivity].
    destruct (truthy (Spec.matchedSourceFile r)) eqn:Htruthy;
      cbn [andb Spec.first_occurrences List.filter]; [|reflexivity].
    set (x := Spec.matchedSourceFile r).
    set (N := Spec.first_occurrences _).
    destruct (py_in x (matched_files st)) eqn:Hin; cbn [negb].
    + f_equal. rewrite filter_twice. apply filter_same. intros y.
      destruct (bool_decide (y = x)) eqn:Hyx; simpl; [|reflexivity].
      apply bool_decide_eq_true in Hyx. subst y. now rewrite Hin.
    + rewrite <- app_assoc. f_equal. simpl. f_equal.
      rewrite filter_twice. apply filter_same. intros y.
      rewrite py_in_snoc, negb_orb. apply andb_comm.
Qed.

End FirstOccurrences.

(* ===================================================================== *)
(** ** The decision *)
(* ===================================================================== *)

Section Decision.

Import Main.

Lemma filter_all_in {A} (p : A -> bool) (l : list A) :
  (forall a, List.In a l -> p a = true) -> List.filter p l = l.
Proof.
  induction l as [|a l IH]; simpl; intros H; [reflexivity|].
  rewrite H by now left. f_equal. apply IH. intros b Hb. apply H. now right.
Qed.

Lemma analyze_results_files (t : Q) (results : list scored) :
  matched_files (analyze_results t results) = Spec.matchedFiles_named t results.
Proof.
  unfold analyze_results. rewrite fold_files. cbn [matched_files app].
  apply filter_all_in. intros y _. unfold py_in.
  apply negb_true_iff, bool_decide_eq_false. apply not_elem_of_nil.
Qed.

Lemma analyze_results_detected (t : Q) (results : list scored) :
  plagiarism_detected (analyze_results t results)
  = existsb (Spec.reaches t) results.
Proof. unfold analyze_results. now rewrite fold_detected. Qed.

Lemma existsb_reaches (t : Q) (results : list scored) :
  existsb (Spec.reaches t) results = true
  <-> exists r, r ∈ results /\ (t <= Spec.score r)%Q.
Proof.
  rewrite List.existsb_exists. unfold Spec.reaches.
  split; intros (r & Hr & H); exists r.
  - now rewrite list_elem_of_In, <- Qle_bool_iff.
  - now rewrite <- list_elem_of_In, Qle_bool_iff.
Qed.

Lemma elem_of_matchedFiles_named (t : Q) (results : list scored) (v : pyval) :
  v ∈ Spec.matchedFiles_named t results
  <-> exists r, r ∈ results /\ (t <= Spec.score r)%Q
                /\ Spec.matchedSourceFile r = v /\ truthy v = true.
Proof.
  unfold Spec.matchedFiles_named.
  rewrite elem_of_first_occurrences, elem_of_filter_bool, list_elem_of_In,
    List.in_map_iff.
  split.
  - intros [(r & Hv & Hr) Htruthy].
    apply List.filter_In in Hr as [Hr Hreach].
    exists r. rewrite list_elem_of_In. unfold Spec.reaches in Hreach.
    now rewrite <- Qle_bool_iff.
  - intros (r & Hr & Hreach & Hv & Htruthy). split; [|exact Htruthy].
    exists r. split; [exact Hv|]. apply List.filter_In.
    rewrite <- list_elem_of_In. unfold Spec.reaches.
    now rewrite Qle_bool_iff.
Qed.

Lemma nonempty_elem {A} (l : list A) : l <> [] <-> exists a, a ∈ l.
Proof.
  destruct l as [|a l]; split.
  - congruence.
  - intros [a Ha]. inversion Ha.
  - intros _. exists a. apply elem_of_cons. now left.
  - discriminate.
Qed.

End Decision.

(** C1, as the specification states it, fails: a match that reaches the
    threshold but whose [source_file] is the empty string raises
    [plagiarism_detected] and leaves [matched_files] empty. *)
Lemma detected_with_no_matched_file :
  let st := Main.analyze_results Main.threshold Demo.unnamed_match in
  ~ (Main.plagiarism_detected st = true <-> Main.matched_files st <> []).
Proof.
  vm_compute. intros [H _]. now apply H.
Qed.

(** C1 (amended): after the loop, [plagiarism_detected] is true if and only
    if some match has a score of at least 0.75; [matched_files] is
    non-empty if and only if some such match carries a non-empty
    [source_file]; hence a non-empty [matched_files] implies
    [plagiarism_detected], and the two are equivalent when every match
    reaching the threshold carries a non-empty [source_file]. *)
Theorem detected_iff_match_reaches_threshold (results : list scored) :
  let st := Main.analyze_results Main.threshold results in
  (Main.plagiarism_detected st = true
   <-> exists r, r ∈ results /\ (0.75 <= Spec.score r)%Q)
  /\ (Main.matched_files st <> []
      <-> exists r, r ∈ results /\ (0.75 <= Spec.score r)%Q
                    /\ truthy (Spec.matchedSourceFile r) = true)
  /\ (Main.matched_files st <> [] -> Main.plagiarism_detected st = true)
  /\ ((forall r, r ∈ results -> (0.75 <= Spec.score r)%Q ->
         truthy (Spec.matchedSourceFile r) = true) ->
      (Main.plagiarism_detected st = true <-> Main.matched_files st <> [])).
Proof.
  cbn zeta.
  assert (Hdet : Main.plagiarism_detected
                   (Main.analyze_results Main.threshold results) = true
                 <-> exists r, r ∈ results /\ (0.75 <= Spec.score r)%Q).
  { rewrite analyze_results_detected. apply existsb_reaches. }
  assert (Hfiles : Main.matched_files
                     (Main.analyze_results Main.threshold results) <> []
                   <-> exists r, r ∈ results /\ (0.75 <= Spec.score r)%Q
                         /\ truthy (Spec.matchedSourceFile r) = true).
  { rewrite analyze_results_files, nonempty_elem. split.
    - intros (v & Hv). apply elem_of_matchedFiles_named in Hv
        as (r & Hr & Hreach & <- & Htruthy). eauto.
    - intros (r & Hr & Hreach & Htruthy).
      exists (Spec.matchedSourceFile r).
      apply elem_of_matchedFiles_named. eauto 6. }
  split; [exact Hdet|]. split; [exact Hfiles|]. split.
  - intros H. apply Hdet. apply Hfiles in H as (r & Hr & Hreach & _). eauto.
  - intros Hnamed. rewrite Hdet, Hfiles. split.
    + intros (r & Hr & Hreach). eauto 6.
    + intros (r & Hr & Hreach & _). eauto.
Qed.

(** C2, as the specification states it, fails on the same match: its
    [source_file], the empty string, is not listed. *)
Lemma unnamed_match_not_listed :
  Main.matched_files (Main.analyze_results Main.threshold Demo.unnamed_match)
  <> Spec.matchedFiles_as_claimed Main.threshold Demo.unnamed_match.
Proof. vm_compute. discriminate. Qed.

(** C2 (amended): [matched_files] holds exactly the [source_file] values of
    the matches whose score is at least 0.75 and whose [source_file] is
    present and non-empty, without repetition, in the order in which each
    file is first met in the results.  When every match reaching the
    threshold carries such a [source_file], this is the list the
    specification describes. *)
Theorem matched_files_first_occurrences (results : list scored) :
  let files := Main.matched_files (Main.analyze_results Main.threshold results) in
  files = Spec.matchedFiles_named Main.threshold results
  /\ NoDup files
  /\ (forall v, v ∈ files
        <-> exists r, r ∈ results /\ (0.75 <= Spec.score r)%Q
                      /\ Spec.matchedSourceFile r = v /\ truthy v = true)
  /\ ((forall r, r ∈ results -> (0.75 <= Spec.score r)%Q ->
         truthy (Spec.matchedSourceFile r) = true) ->
      files = Spec.matchedFiles_as_claimed Main.threshold results).
Proof.
  cbn zeta. rewrite analyze_results_files.
  split; [reflexivity|]. split; [apply NoDup_first_occurrences|].
  split; [intros v; apply elem_of_matchedFiles_named|].
  intros Hnamed. unfold Spec.matchedFiles_named, Spec.matchedFiles_as_claimed.
  f_equal. apply filter_all_in. intros v Hv.
  apply List.in_map_iff in Hv as (r & <- & Hr).
  apply List.filter_In in Hr as [Hr Hreach].
  apply Hnamed; [now apply list_elem_of_In|].
  now apply Qle_bool_iff.
Qed.

(** C3: when every score lies in [[0, 1]], [max_score] after the loop is
    the highest score among the matches: it bounds every score and is the
    score of some match; it is [0] when there is no match; and it is the
    same whatever the threshold, so it reflects the best match even when
    no score reaches 0.75. *)
Theorem max_score_is_highest (results : list scored) :
  (forall r, r ∈ results -> (0 <= Spec.score r)%Q /\ (Spec.score r <= 1)%Q) ->
  let m := Main.max_score (Main.analyze_results Main.threshold results) in
  (results = [] -> m = 0%Q)
  /\ (forall r, r ∈ results -> (Spec.score r <= m)%Q)
  /\ (results <> [] -> exists r, r ∈ results /\ (m == Spec.score r)%Q)
  /\ (forall t, Main.max_score (Main.analyze_results t results) = m)
  /\ (Main.plagiarism_detected (Main.analyze_results Main.threshold results)
      = false -> forall r, r ∈ results -> (Spec.score r <= m)%Q /\ (m < 0.75)%Q).
Proof.
  intros Hrange. cbn zeta. unfold Main.analyze_results.
  set (st0 := {| Main.plagiarism_detected := false;
                 Main.matched_files := [];
                 Main.max_score := 0%Q |}).
  destruct (fold_max Main.threshold results st0) as (Hge & Hall & Hsrc).
  cbn zeta in Hge, Hall, Hsrc.
  assert (Hattained : results <> [] ->
            exists r, r ∈ results
              /\ (Main.max_score
                    (fold_left (Main.analyze_step Main.threshold) results st0)
                  == Spec.score r)%Q).
  { intros Hne. destruct Hsrc as [Hsrc|(r & Hr & Hsrc)].
    - apply nonempty_elem in Hne as [r Hr]. exists r. split; [exact Hr|].
      rewrite Hsrc. simpl. apply Qle_antisym.
      + now apply Hrange.
      + specialize (Hall r Hr). now rewrite Hsrc in Hall.
    - exists r. split; [exact Hr|]. now rewrite Hsrc. }
  split; [intros ->; reflexivity|].
  split; [exact Hall|].
  split; [exact Hattained|].
  split; [intros t; apply fold_max_threshold; reflexivity|].
  intros Hnot r Hr. split; [now apply Hall|].
  destruct (Hattained ltac:(intros ->; inversion Hr)) as (r' & Hr' & ->).
  apply Qnot_le_lt. intros Hreach.
  assert (Hdet : Main.plagiarism_detected
                   (Main.analyze_results Main.threshold results) = true).
  { rewrite analyze_results_detected. apply existsb_reaches. eauto. }
  unfold Main.analyze_results in Hdet. fold st0 in Hdet. congruence.
Qed.

Lemma max_score_is_highest_witness :
  (forall r, r ∈ Demo.below_threshold ->
     (0 <= Spec.score r)%Q /\ (Spec.score r <= 1)%Q)
  /\ (Main.max_score
        (Main.analyze_results Main.threshold Demo.below_threshold) == 0.5)%Q
  /\ (forall r, r ∈ Demo.below_threshold ->
        (Spec.score r
         <= Main.max_score
              (Main.analyze_results Main.threshold Demo.below_threshold))%Q).
Proof.
  assert (H : forall r, r ∈ Demo.below_threshold ->
                (0 <= Spec.score r)%Q /\ (Spec.score r <= 1)%Q).
  { intros r Hr. unfold Demo.below_threshold in Hr.
    apply elem_of_cons in Hr as [->|Hr];
      [|apply elem_of_cons in Hr as [->|Hr]; [|inversion Hr]];
      vm_compute; split; discriminate. }
  split; [exact H|]. split; [reflexivity|].
  exact (proj1 (proj2 (max_score_is_highest Demo.below_threshold H))).
Defined.

(* ===================================================================== *)
(** ** Splitting at a marker *)
(* ===================================================================== *)

Section Splitting.

Lemma startswith_iff (s p : pystr) :
  startswith s p = true <-> exists post, s = p ++ post.
Proof.
  revert s. induction p as [|a p IH]; intros s.
  - split; [intros _; now exists s|now destruct s].
  - destruct s as [|b s]; simpl.
    + split; [discriminate|]. intros [post H]. discriminate.
    + rewrite andb_true_iff, N.eqb_eq, IH. split.
      * intros [-> [post ->]]. now exists post.
      * intros [post H]. injection H as -> ->. eauto.
Qed.

(** [find] returns the least index at which the marker occurs. *)
Lemma find_Some (s sub : pystr) (i : nat) :
  Spec.find s sub = Some i ->
  Spec.occurs_at sub s i /\ forall j, Spec.occurs_at sub s j -> i <= j.
Proof.
  revert i. induction s as [|c s IH]; intros i; cbn [Spec.find].
  - destruct (startswith [] sub) eqn:Hs; [|discriminate].
    intros [= <-]. split; [|lia].
    apply startswith_iff in Hs as [post Hs]. now exists [], post.
  - destruct (startswith (c :: s) sub) eqn:Hs.
    + intros [= <-]. split; [|lia].
      apply startswith_iff in Hs as [post Hs]. now exists [], post.
    + destruct (Spec.find s sub) as [k|] eqn:Hfind; [|discriminate].
      intros [= <-]. destruct (IH k eq_refl) as [(pre & post & -> & Hlen) Hmin].
      split.
      * exists (c :: pre), post. simpl. now rewrite Hlen.
      * intros j (pre' & post' & Heq & Hlen').
        destruct pre' as [|c' pre']; simpl in Heq, Hlen'.
        -- assert (startswith (c :: pre ++ sub ++ post) sub = true)
             by (apply startswith_iff; eauto).
           congruence.
        -- injection Heq as -> Heq. subst j.
           apply le_n_S, Hmin. now exists pre', post'.
Qed.

(** [find] fails only when the marker occurs nowhere. *)
Lemma find_None (s sub : pystr) :
  Spec.find s sub = None -> forall j, ~ Spec.occurs_at sub s j.
Proof.
  induction s as [|c s IH]; cbn [Spec.find].
  - destruct (startswith [] sub) eqn:Hs; [discriminate|].
    intros _ j (pre & post & Heq & _).
    destruct pre; [|discriminate]. simpl in Heq.
    assert (startswith [] sub = true) by (apply startswith_iff; eauto).
    congruence.
  - destruct (startswith (c :: s) sub) eqn:Hs; [discriminate|].
    destruct (Spec.find s sub) eqn:Hfind; [discriminate|].
    intros _ j (pre & post & Heq & _).
    destruct pre as [|c' pre]; simpl in Heq.
    + assert (startswith (c :: s) sub = true) by (apply startswith_iff; eauto).
      congruence.
    + injection Heq as -> ->. apply (IH eq_refl (length pre)).
      now exists pre, post.
Qed.

Lemma split_go_skip (sep : pystr) (k : nat) (acc s : pystr) :
  split_go sep k acc s = split_go sep 0 acc (drop k s).
Proof.
  revert k. induction s as [|c s IH]; intros [|k]; simpl; try reflexivity.
  apply IH.
Qed.

Lemma split_go_None (sep : pystr) (acc s : pystr) :
  Spec.find s sep = None -> split_go sep 0 acc s = [rev acc ++ s].
Proof.
  revert acc. induction s as [|c s IH]; intros acc; cbn [Spec.find split_go].
  - intros _. now rewrite app_nil_r.
  - destruct (startswith (c :: s) sep) eqn:Hs; [discriminate|].
    destruct (Spec.find s sep) eqn:Hfind; [discriminate|].
    intros _. rewrite IH by reflexivity. simpl. now rewrite <- app_assoc.
Qed.

Lemma split_go_Some (sep : pystr) (acc s : pystr) (i : nat) :
  sep <> [] ->
  Spec.find s sep = Some i ->
  split_go sep 0 acc s
  = (rev acc ++ take i s) :: split_go sep 0 [] (drop (i + length sep) s).
Proof.
  intros Hsep. revert acc i. induction s as [|c s IH]; intros acc i; cbn [Spec.find split_go].
  - destruct sep; [congruence|]. discriminate.
  - destruct (startswith (c :: s) sep) eqn:Hs.
    + intros [= <-]. simpl. rewrite app_nil_r, split_go_skip.
      destruct sep as [|a sep]; [congruence|]. simpl.
      now rewrite Nat.sub_0_r.
    + destruct (Spec.find s sep) as [k|] eqn:Hfind; [|discriminate].
      intros [= <-]. rewrite (IH _ k) by reflexivity. simpl.
      now rewrite <- app_assoc.
Qed.

(** The parts of a split: the text before the first marker, then the
    parts of the text after it. *)
Lemma split_unfold (s sep : pystr) :
  sep <> [] ->
  split s sep
  = match Spec.after_first sep s with
    | Some rest => Spec.before_first sep s :: split rest sep
    | None => [s]
    end.
Proof.
  intros Hsep. unfold split, Spec.after_first, Spec.before_first.
  destruct (Spec.find s sep) as [i|] eqn:Hfind.
  - now rewrite (split_go_Some sep [] s i).
  - now rewrite split_go_None.
Qed.

Lemma split_head (s sep : pystr) :
  sep <> [] -> split s sep !! 0%nat = Some (Spec.before_first sep s).
Proof.
  intros Hsep. rewrite split_unfold by assumption.
  unfold Spec.after_first, Spec.before_first.
  now destruct (Spec.find s sep).
Qed.

Lemma split_second (s sep : pystr) :
  sep <> [] ->
  split s sep !! 1%nat
  = Spec.before_first sep <$> Spec.after_first sep s.
Proof.
  intros Hsep. rewrite split_unfold by assumption.
  destruct (Spec.after_first sep s) as [rest|]; simpl; [|reflexivity].
  now apply split_head.
Qed.

Lemma split_length (s sep : pystr) :
  sep <> [] ->
  (1 <? length (split s sep))%nat
  = match Spec.after_first sep s with Some _ => true | None => false end.
Proof.
  intros Hsep. rewrite split_unfold by assumption.
  destruct (Spec.after_first sep s) as [rest|]; simpl; [|reflexivity].
  rewrite split_unfold by assumption.
  now destruct (Spec.after_first sep rest).
Qed.

Lemma SKILLS_nonempty : Main.SKILLS <> [].
Proof. discriminate. Qed.

(** [parse_chain_output] in terms of the text around the first marker. *)
Lemma parse_chain_output_eq (output : pystr) :
  Main.parse_chain_output output
  = match Spec.summary_of output with
    | [] => Raise (HTTPException 500 "Failed to process document content")
    | _ :: _ => Ok (Spec.summary_of output, Spec.skills_between output)
    end.
Proof.
  unfold Main.parse_chain_output, Spec.summary_of, Spec.skills_between.
  rewrite (split_head output Main.SKILLS SKILLS_nonempty),
    (split_length output Main.SKILLS SKILLS_nonempty),
    (split_second output Main.SKILLS SKILLS_nonempty).
  cbn [Res.bind].
  destruct (Spec.after_first Main.SKILLS output) as [rest|]; cbn [fmap option_fmap option_map Res.bind];
    now destruct (strip _).
Qed.

End Splitting.

(* ===================================================================== *)
(** ** The handler, stage by stage *)
(* ===================================================================== *)

Section Handler.

Import Main.

Variable sv : Services.

Ltac run_request :=
  unfold check_plagiarism, admit_document, Req.try_except, Req.bind,
    Req.lift, Req.call, Req.raise, Req.ret.

Lemma check_plagiarism_decided (file : UploadFile)
    (text output summary skills : pystr) (results : list scored)
    (t : Req.trace) :
  Spec.reaches_decision sv file text output summary skills results ->
  check_plagiarism sv file t
  = (Ok (Spec.decision_response results),
     t ++ [chain_invoke_called text; similarity_search_called summary 3]
       ++ Spec.admission_calls sv (new_doc file summary skills) results).
Proof.
  intros (Hv & Hx & Hc & Hp & Hs). run_request.
  rewrite Hv, Hx, Hc, Hp, Hs.
  unfold Spec.decision_response, Spec.admission_calls. cbn zeta.
  destruct (plagiarism_detected _); cbn [negb].
  - now rewrite <- !app_assoc.
  - destruct (add_documents sv _); [destruct (describe_index_stats sv)|];
      now rewrite <- !app_assoc.
Qed.

Lemma post_decided (file : UploadFile)
    (text output summary skills : pystr) (results : list scored) :
  Spec.reaches_decision sv file text output summary skills results ->
  post_check_plagiarism sv file
  = (Spec.decision_response results,
     [chain_invoke_called text; similarity_search_called summary 3]
       ++ Spec.admission_calls sv (new_doc file summary skills) results).
Proof.
  intros H. unfold post_check_plagiarism.
  now rewrite (check_plagiarism_decided _ _ _ _ _ _ _ H).
Qed.

(** A request that fails validation is answered at once: no service is
    called. *)
Lemma post_invalid (file : UploadFile) (code : Z) (detail : string) :
  validate_file file = Raise (HTTPException code detail) ->
  post_check_plagiarism sv file
  = (if (code =? 413)%Z then file_too_large_handler
     else {| status_code := code; content := Json.Detail detail |}, []).
Proof.
  intros Hv. unfold post_check_plagiarism. run_request. now rewrite Hv.
Qed.

(** A chain output that cannot be parsed ends the request after the call
    to the chain. *)
Lemma post_unparsed (file : UploadFile) (text output : pystr)
    (code : Z) (detail : string) :
  validate_file file = Ok tt ->
  extract_full_pdf_text sv (file_bytes file) = Ok text ->
  chain_invoke sv text = Ok output ->
  parse_chain_output output = Raise (HTTPException code detail) ->
  post_check_plagiarism sv file
  = (if (code =? 413)%Z then file_too_large_handler
     else {| status_code := code; content := Json.Detail detail |},
     [chain_invoke_called text]).
Proof.
  intros Hv Hx Hc Hp. unfold post_check_plagiarism. run_request.
  now rewrite Hv, Hx, Hc, Hp.
Qed.

(** Every request: the number of insertions recorded matches the
    response. *)
Lemma post_insertions (file : UploadFile) :
  Spec.insertions (post_check_plagiarism sv file).2
  = match content (post_check_plagiarism sv file).1 with
    | Json.Data d => if Json.plagiarism_detected d then 0 else 1
    | _ => 0
    end
  /\ match content (post_check_plagiarism sv file).1 with
     | Json.Data d =>
         Json.document_added d = negb (Json.plagiarism_detected d)
     | _ => True
     end.
Proof.
  unfold post_check_plagiarism. run_request.
  destruct (validate_file file) as [[]|e1];
    [|destruct e1 as [c1 ? | | | | ]; cbn; try destruct (c1 =? 413)%Z; now cbn].
  destruct (extract_full_pdf_text sv (file_bytes file)) as [text|e2];
    [|destruct e2 as [c2 ? | | | | ]; cbn; try destruct (c2 =? 413)%Z; now cbn].
  destruct (chain_invoke sv text) as [output|e3]; [|now cbn].
  destruct (parse_chain_output output) as [[summary skills]|e4];
    [|destruct e4 as [c4 ? | | | | ]; cbn; try destruct (c4 =? 413)%Z; now cbn].
  destruct (similarity_search_with_score sv summary 3) as [results|e5];
    [|now cbn].
  destruct (plagiarism_detected (analyze_results threshold results)) eqn:Hd;
    cbn [negb].
  - now cbn.
  - destruct (add_documents sv _); [destruct (describe_index_stats sv)|];
      now cbn.
Qed.

End Handler.

(* ===================================================================== *)
(** ** Admission to the corpus *)
(* ===================================================================== *)

Lemma failing_store_reaches_decision :
  Spec.reaches_decision Demo.failing_store Demo.upload Demo.page_text
    Demo.output_full (str "foo") (str "bar,baz") Demo.below_threshold.
Proof. repeat split; reflexivity. Qed.

Lemma reaches_decision_with_insertion (sv : Services) (file : UploadFile)
    (text output summary skills : pystr) (results : list scored)
    (insertion : result unit) :
  Spec.reaches_decision sv file text output summary skills results ->
  Spec.reaches_decision (Spec.with_insertion sv insertion) file text output
    summary skills results.
Proof. intros H. exact H. Qed.

Lemma insertions_admission_calls (sv : Services) (doc : Document)
    (results : list scored) :
  Spec.insertions (Spec.admission_calls sv doc results)
  = if Main.plagiarism_detected (Main.analyze_results Main.threshold results)
    then 0 else 1.
Proof.
  unfold Spec.admission_calls.
  destruct (Main.plagiarism_detected _); [reflexivity|].
  now destruct (add_documents sv [doc]).
Qed.

(** C4: the insertion into the corpus is called if and only if the
    response reports no plagiarism, and at most once per request (never
    when the request fails before the decision); the field
    [document_added] is the negation of [plagiarism_detected]; and the
    reported [plagiarism_detected] is the flag the loop over the search
    results computed. *)
Theorem insertion_iff_no_duplicate (sv : Services) (file : UploadFile) :
  let response := (Main.post_check_plagiarism sv file).1 in
  let calls := (Main.post_check_plagiarism sv file).2 in
  Spec.insertions calls <= 1
  /\ match content response with
     | Json.Data d =>
         (Spec.insertions calls = 1 <-> Json.plagiarism_detected d = false)
         /\ Json.document_added d = negb (Json.plagiarism_detected d)
     | _ => Spec.insertions calls = 0
     end
  /\ forall text output summary skills results,
       Spec.reaches_decision sv file text output summary skills results ->
       exists d,
         content response = Json.Data d
         /\ Json.plagiarism_detected d
            = Main.plagiarism_detected
                (Main.analyze_results Main.threshold results)
         /\ Json.document_added d = negb (Json.plagiarism_detected d)
         /\ Spec.insertions calls
            = if Json.plagiarism_detected d then 0 else 1.
Proof.
  cbn zeta. destruct (post_insertions sv file) as [Hcount Hadded].
  split; [|split].
  - rewrite Hcount. destruct (content _) as [d| | |]; try lia.
    destruct (Json.plagiarism_detected d); lia.
  - destruct (content _) as [d| | |]; try exact Hcount.
    split; [|exact Hadded]. rewrite Hcount.
    destruct (Json.plagiarism_detected d); split; congruence.
  - intros text output summary skills results H.
    rewrite (post_decided sv file _ _ _ _ _ H). cbn [fst snd].
    eexists. split; [reflexivity|]. cbn.
    split; [reflexivity|]. split; [reflexivity|].
    apply insertions_admission_calls.
Qed.

Lemma insertion_iff_no_duplicate_witness :
  Spec.reaches_decision Demo.failing_store Demo.upload Demo.page_text
    Demo.output_full (str "foo") (str "bar,baz") Demo.below_threshold
  /\ exists d,
       content (Main.post_check_plagiarism Demo.failing_store Demo.upload).1
       = Json.Data d
       /\ Json.plagiarism_detected d
          = Main.plagiarism_detected
              (Main.analyze_results Main.threshold Demo.below_threshold)
       /\ Json.document_added d = negb (Json.plagiarism_detected d)
       /\ Spec.insertions
            (Main.post_check_plagiarism Demo.failing_store Demo.upload).2
          = if Json.plagiarism_detected d then 0 else 1.
Proof.
  split.
  - repeat split; reflexivity.
  - apply (proj2 (proj2
             (insertion_iff_no_duplicate Demo.failing_store Demo.upload))
             Demo.page_text Demo.output_full (str "foo") (str "bar,baz")).
    repeat split; reflexivity.
Defined.

(** C5: when the insertion raises after a decision of no duplicate, the
    request is answered with status 200; the response reports
    [plagiarism_detected] (false) and [max_score] (rounded to four
    decimals) as the loop computed them before the insertion was tried,
    and it is the very response given when the insertion succeeds. *)
Theorem insertion_failure_isolated (sv : Services) (file : UploadFile)
    (text output summary skills : pystr) (results : list scored) (e : exn) :
  Spec.reaches_decision sv file text output summary skills results ->
  Main.plagiarism_detected (Main.analyze_results Main.threshold results)
  = false ->
  add_documents sv [Main.new_doc file summary skills] = Raise e ->
  let response := (Main.post_check_plagiarism sv file).1 in
  status_code response = 200%Z
  /\ (exists d,
        content response = Json.Data d
        /\ Json.plagiarism_detected d = false
        /\ Json.max_score d
           = round4 (Main.max_score
                       (Main.analyze_results Main.threshold results))
        /\ Json.matched_files d
           = Main.matched_files (Main.analyze_results Main.threshold results))
  /\ response
     = (Main.post_check_plagiarism (Spec.with_insertion sv (Ok tt)) file).1
  /\ (Main.post_check_plagiarism sv file).2
     = [chain_invoke_called text; similarity_search_called summary 3;
        add_documents_called [Main.new_doc file summary skills]].
Proof.
  intros H Hd Hadd. cbn zeta.
  rewrite (post_decided sv file _ _ _ _ _ H).
  rewrite (post_decided _ file _ _ _ _ _
             (reaches_decision_with_insertion sv file _ _ _ _ _ (Ok tt) H)).
  cbn [fst snd]. unfold Spec.decision_response, Spec.admission_calls.
  rewrite Hd, Hadd. cbn.
  split; [reflexivity|]. split; [|split; reflexivity].
  eexists. split; [reflexivity|]. now repeat split.
Qed.

Lemma insertion_failure_isolated_witness :
  status_code (Main.post_check_plagiarism Demo.failing_store Demo.upload).1
  = 200%Z
  /\ exists d,
       content (Main.post_check_plagiarism Demo.failing_store Demo.upload).1
       = Json.Data d
       /\ Json.plagiarism_detected d = false
       /\ (Json.max_score d == 0.5)%Q.
Proof.
  destruct (insertion_failure_isolated Demo.failing_store Demo.upload
              Demo.page_text Demo.output_full (str "foo") (str "bar,baz")
              Demo.below_threshold (OtherError "Vector store failure"))
    as (Hstatus & (d & Hd & Hflag & Hmax & _) & _).
  - repeat split; reflexivity.
  - reflexivity.
  - reflexivity.
  - split; [exact Hstatus|]. exists d.
    split; [exact Hd|]. split; [exact Hflag|]. now rewrite Hmax.
Defined.

(** C6, as the specification states it, fails: after a failed insertion
    the response still reports [document_added] as true. *)
Lemma document_added_reported_after_failed_insertion :
  add_documents Demo.failing_store
    [Main.new_doc Demo.upload (str "foo") (str "bar,baz")]
  = Raise (OtherError "Vector store failure")
  /\ exists d,
       content (Main.post_check_plagiarism Demo.failing_store Demo.upload).1
       = Json.Data d
       /\ Json.plagiarism_detected d = false
       /\ Json.document_added d <> false.
Proof.
  split; [reflexivity|]. eexists. split; [reflexivity|].
  split; [reflexivity|]. discriminate.
Qed.

(** C6 (amended): when the insertion raises after a decision of no
    duplicate, the response keeps status 200 and content unchanged, and
    its field [document_added] is still the negation of
    [plagiarism_detected], that is, true: the failure is not reported in
    the response. *)
Theorem document_added_ignores_insertion_failure (sv : Services)
    (file : UploadFile) (text output summary skills : pystr)
    (results : list scored) (e : exn) :
  Spec.reaches_decision sv file text output summary skills results ->
  Main.plagiarism_detected (Main.analyze_results Main.threshold results)
  = false ->
  add_documents sv [Main.new_doc file summary skills] = Raise e ->
  let response := (Main.post_check_plagiarism sv file).1 in
  (exists d,
     content response = Json.Data d
     /\ Json.document_added d = true
     /\ Json.document_added d = negb (Json.plagiarism_detected d))
  /\ status_code response = 200%Z
  /\ forall insertion,
       (Main.post_check_plagiarism (Spec.with_insertion sv insertion) file).1
       = response.
Proof.
  intros H Hd Hadd. cbn zeta.
  rewrite (post_decided sv file _ _ _ _ _ H). cbn [fst].
  split; [|split].
  - unfold Spec.decision_response. cbn. rewrite Hd.
    eexists. split; [reflexivity|]. now split.
  - reflexivity.
  - intros insertion.
    now rewrite (post_decided _ file _ _ _ _ _
                   (reaches_decision_with_insertion sv file _ _ _ _ _
                      insertion H)).
Qed.

Lemma document_added_ignores_insertion_failure_witness :
  exists d,
    content (Main.post_check_plagiarism Demo.failing_store Demo.upload).1
    = Json.Data d
    /\ Json.document_added d = true
    /\ Json.document_added d = negb (Json.plagiarism_detected d).
Proof.
  refine (proj1 (document_added_ignores_insertion_failure Demo.failing_store
                   Demo.upload Demo.page_text Demo.output_full (str "foo")
                   (str "bar,baz") Demo.below_threshold
                   (OtherError "Vector store failure") _ _ _)).
  - repeat split; reflexivity.
  - reflexivity.
  - reflexivity.
Defined.

(* ===================================================================== *)
(** ** The output parser *)
(* ===================================================================== *)

(** The text before and the text after the first marker are what their
    names say: together with the marker they make up the whole text, and
    the marker does not occur earlier. *)
Lemma around_first_marker (marker s rest : pystr) :
  Spec.after_first marker s = Some rest ->
  s = Spec.before_first marker s ++ marker ++ rest
  /\ forall j, Spec.occurs_at marker s j ->
       length (Spec.before_first marker s) <= j.
Proof.
  unfold Spec.after_first, Spec.before_first.
  destruct (Spec.find s marker) as [i|] eqn:Hfind; [|discriminate].
  intros [= <-].
  destruct (find_Some s marker i Hfind) as [(pre & post & Hs & Hlen) Hmin].
  assert (Htake : take i s = pre).
  { rewrite Hs, <- Hlen. apply take_app_length. }
  assert (Hdrop : drop (i + length marker) s = post).
  { rewrite Hs, <- Hlen, app_assoc, <- length_app. apply drop_app_length. }
  rewrite Htake, Hdrop. split; [exact Hs|].
  intros j Hj. rewrite Hlen. now apply Hmin.
Qed.

(** C7, as the specification states it, fails when the marker [SKILLS:]
    occurs twice: the skills stop at the second occurrence. *)
Lemma skills_stop_at_second_marker :
  Main.parse_chain_output Demo.output_two_markers
  = Ok (str "foo", str "bar")
  /\ Spec.skills_after_first Demo.output_two_markers
     = str "bar" ++ [10%N] ++ str "SKILLS:" ++ [10%N] ++ str "baz"
  /\ str "bar" <> Spec.skills_after_first Demo.output_two_markers.
Proof. repeat split. vm_compute. discriminate. Qed.

(** C7 (amended): the parser returns as summary the text before the first
    occurrence of [SKILLS:], with the marker [SUMMARY:] removed and white
    space trimmed at both ends, provided that summary is not empty; it
    returns as skills the trimmed text between the first occurrence of
    [SKILLS:] and the next one (the end of the output when there is no
    other), or the empty string when the marker is absent.  With at most
    one [SKILLS:] these are the skills of the specification. *)
Theorem parser_splits_at_first_marker (output : pystr) :
  Main.parse_chain_output output
  = match Spec.summary_of output with
    | [] => Raise (HTTPException 500 "Failed to process document content")
    | _ :: _ => Ok (Spec.summary_of output, Spec.skills_between output)
    end
  /\ match Spec.after_first Main.SKILLS output with
     | None =>
         Spec.skills_between output = []
         /\ Spec.before_first Main.SKILLS output = output
         /\ forall j, ~ Spec.occurs_at Main.SKILLS output j
     | Some rest =>
         Spec.skills_between output = strip (Spec.before_first Main.SKILLS rest)
         /\ output = Spec.before_first Main.SKILLS output ++ Main.SKILLS ++ rest
         /\ (forall j, Spec.occurs_at Main.SKILLS output j ->
               length (Spec.before_first Main.SKILLS output) <= j)
         /\ ((forall j, ~ Spec.occurs_at Main.SKILLS rest j) ->
             Spec.skills_between output = strip rest
             /\ Spec.skills_between output = Spec.skills_after_first output)
     end.
Proof.
  split; [apply parse_chain_output_eq|].
  destruct (Spec.after_first Main.SKILLS output) as [rest|] eqn:Hafter.
  - destruct (around_first_marker _ _ _ Hafter) as [Hs Hmin].
    unfold Spec.skills_between, Spec.skills_after_first. rewrite Hafter.
    split; [reflexivity|]. split; [exact Hs|]. split; [exact Hmin|].
    intros Hnone. unfold Spec.before_first.
    destruct (Spec.find rest Main.SKILLS) as [i|] eqn:Hfind; [|now split].
    destruct (find_Some _ _ _ Hfind) as [Hocc _]. now apply Hnone in Hocc.
  - unfold Spec.skills_between, Spec.before_first. rewrite Hafter.
    unfold Spec.after_first in Hafter.
    destruct (Spec.find output Main.SKILLS) eqn:Hfind; [discriminate|].
    split; [reflexivity|]. split; [reflexivity|]. now apply find_None.
Qed.

(** The examples of the specification. *)
Example parse_summary_and_skills :
  Main.parse_chain_output Demo.output_full = Ok (str "foo", str "bar,baz").
Proof. reflexivity. Qed.

Example parse_summary_only :
  Main.parse_chain_output Demo.output_no_skills = Ok (str "foo", []).
Proof. reflexivity. Qed.

Example parse_empty_summary :
  Main.parse_chain_output Demo.output_empty
  = Raise (HTTPException 500 "Failed to process document content").
Proof. reflexivity. Qed.

(** C8: the parser fails if and only if the summary is empty after
    trimming, always with an [HTTPException] of status 500; on a non-empty
    summary it succeeds; and when it fails the request is answered with
    status 500, after the call to the chain and before any search. *)
Theorem parser_fails_iff_summary_empty (output : pystr) :
  ((exists e, Main.parse_chain_output output = Raise e)
   <-> Spec.summary_of output = [])
  /\ (forall e, Main.parse_chain_output output = Raise e ->
        e = HTTPException 500 "Failed to process document content")
  /\ (Spec.summary_of output <> [] ->
      Main.parse_chain_output output
      = Ok (Spec.summary_of output, Spec.skills_between output))
  /\ forall sv file text,
       Main.validate_file file = Ok tt ->
       Main.extract_full_pdf_text sv (file_bytes file) = Ok text ->
       chain_invoke sv text = Ok output ->
       Spec.summary_of output = [] ->
       Main.post_check_plagiarism sv file
       = ({| status_code := 500;
             content := Json.Detail "Failed to process document content" |},
          [chain_invoke_called text]).
Proof.
  pose proof (parse_chain_output_eq output) as Heq.
  split; [|split; [|split]].
  - destruct (Spec.summary_of output) eqn:Hsum; rewrite Heq; split.
    + reflexivity.
    + intros _. eauto.
    + intros [e He]. discriminate.
    + discriminate.
  - intros e He. rewrite Heq in He.
    destruct (Spec.summary_of output); congruence.
  - intros Hne. rewrite Heq. now destruct (Spec.summary_of output).
  - intros sv file text Hv Hx Hc Hsum. rewrite Hsum in Heq.
    now rewrite (post_unparsed sv file text output _ _ Hv Hx Hc Heq).
Qed.

Lemma parser_fails_iff_summary_empty_witness :
  Spec.summary_of Demo.output_empty = []
  /\ Main.post_check_plagiarism
       (Demo.services Demo.output_empty [] (Ok tt)) Demo.upload
     = ({| status_code := 500;
           content := Json.Detail "Failed to process document content" |},
        [chain_invoke_called Demo.page_text])
  /\ Spec.summary_of Demo.output_full <> []
  /\ Main.parse_chain_output Demo.output_full
     = Ok (Spec.summary_of Demo.output_full,
           Spec.skills_between Demo.output_full).
Proof.
  split; [reflexivity|]. split; [|split].
  - apply (proj2 (proj2 (proj2
             (parser_fails_iff_summary_empty Demo.output_empty)))
             (Demo.services Demo.output_empty [] (Ok tt)) Demo.upload
             Demo.page_text); reflexivity.
  - vm_compute. discriminate.
  - apply (proj1 (proj2 (proj2
             (parser_fails_iff_summary_empty Demo.output_full)))).
    vm_compute. discriminate.
Defined.

(* ===================================================================== *)
(** ** Validation of the upload *)
(* ===================================================================== *)

Lemma size_check_iff (file : UploadFile) :
  match size file with
  | Some n => negb (n =? 0)%Z && (Main.MAX_FILE_SIZE <? n)%Z
  | None => false
  end = true
  <-> Spec.announces_oversize file.
Proof.
  unfold Spec.announces_oversize. destruct (size file) as [n|].
  - rewrite andb_true_iff, negb_true_iff, Z.eqb_neq, Z.ltb_lt. split.
    + intros [_ H]. eauto.
    + intros (n' & [= <-] & H). split; [|exact H].
      unfold Main.MAX_FILE_SIZE in H. lia.
  - split; [discriminate|]. intros (n & H & _). discriminate.
Qed.

(** [validate_file] raises status 413 exactly on an announced oversize. *)
Lemma validate_file_413 (file : UploadFile) :
  (exists detail, Main.validate_file file = Raise (HTTPException 413 detail))
  <-> Spec.announces_oversize file.
Proof.
  rewrite <- size_check_iff. unfold Main.validate_file.
  destruct (match size file with Some _ => _ | None => _ end).
  - split; [reflexivity|]. intros _. eauto.
  - split; [|discriminate]. intros [detail H].
    destruct (filename file) as [[|c name]|]; try discriminate.
    destruct (negb _); [discriminate|].
    destruct (match content_type file with Some _ => _ | None => _ end);
      discriminate.
Qed.

(** C9, as the specification states it, fails on the handler: an upload
    whose part carries an empty file name reaches [validate_file] and is
    answered with status 400, not 422. *)
Lemma empty_filename_answered_400 :
  filename Cases.upload_empty_name = Some []
  /\ Main.validate_file Cases.upload_empty_name
     = Raise (HTTPException 400 "Filename is required")
  /\ Main.post_check_plagiarism Demo.failing_store Cases.upload_empty_name
     = ({| status_code := 400;
           content := Json.Detail "Filename is required" |}, [])
  /\ status_code
       (Main.post_check_plagiarism Demo.failing_store
          Cases.upload_empty_name).1
     <> 422%Z.
Proof. repeat split. vm_compute. discriminate. Qed.

(** C9 (amended): when an upload reaches the handler with an empty file
    name (the part carries [filename=""]; the same holds for a file name
    that is [None]), [validate_file] rejects it and the request is
    answered, before any service is called, with status 400 and the
    detail [Filename is required]; with status 413 when the upload also
    announces a size above the limit; never with status 422. *)
Theorem missing_filename_rejected (sv : Services) (file : UploadFile) :
  Spec.filename_missing file ->
  let response := (Main.post_check_plagiarism sv file).1 in
  (~ Spec.announces_oversize file ->
   Main.validate_file file = Raise (HTTPException 400 "Filename is required")
   /\ Main.post_check_plagiarism sv file
      = ({| status_code := 400;
            content := Json.Detail "Filename is required" |}, []))
  /\ (Spec.announces_oversize file -> status_code response = 413%Z)
  /\ status_code response <> 422%Z.
Proof.
  intros Hmissing. cbn zeta.
  assert (Hsmall : ~ Spec.announces_oversize file ->
            Main.validate_file file
            = Raise (HTTPException 400 "Filename is required")).
  { intros Hsize. rewrite <- size_check_iff in Hsize.
    unfold Main.validate_file.
    destruct (match size file with Some _ => _ | None => _ end);
      [now contradict Hsize|].
    now destruct Hmissing as [-> | ->]. }
  assert (Hbig : Spec.announces_oversize file ->
            status_code (Main.post_check_plagiarism sv file).1 = 413%Z).
  { intros Hsize. apply validate_file_413 in Hsize as [detail Hv].
    now rewrite (post_invalid sv file _ _ Hv). }
  split; [|split].
  - intros Hsize. split; [now apply Hsmall|].
    now rewrite (post_invalid sv file _ _ (Hsmall Hsize)).
  - exact Hbig.
  - destruct (size_check_iff file) as [Hto Hfrom].
    destruct (match size file with Some _ => _ | None => _ end) eqn:Hcheck.
    + rewrite (Hbig (Hto eq_refl)). discriminate.
    + assert (Hsize : ~ Spec.announces_oversize file).
      { intros H. apply Hfrom in H. discriminate. }
      rewrite (post_invalid sv file _ _ (Hsmall Hsize)). discriminate.
Qed.

Lemma missing_filename_rejected_witness :
  Spec.filename_missing Cases.upload_empty_name
  /\ ~ Spec.announces_oversize Cases.upload_empty_name
  /\ Main.post_check_plagiarism Demo.failing_store Cases.upload_empty_name
     = ({| status_code := 400;
           content := Json.Detail "Filename is required" |}, [])
  /\ status_code
       (Main.post_check_plagiarism Demo.failing_store
          Cases.upload_empty_name).1
     <> 422%Z.
Proof.
  assert (Hmissing : Spec.filename_missing Cases.upload_empty_name)
    by (right; reflexivity).
  assert (Hsize : ~ Spec.announces_oversize Cases.upload_empty_name).
  { intros (n & [= <-] & H). vm_compute in H. discriminate. }
  split; [exact Hmissing|]. split; [exact Hsize|].
  destruct (missing_filename_rejected Demo.failing_store
              Cases.upload_empty_name Hmissing) as (Hsmall & _ & H422).
  split; [exact (proj2 (Hsmall Hsize))|exact H422].
Defined.

(** C10: [validate_file] raises the error of status 413 only when the
    upload's [size] attribute is set, non-zero and above 10 MiB; it never
    reads the bytes of the upload; and when [size] is [None] or [0], an
    upload with a [.pdf] name and an acceptable content type passes
    validation whatever the length of its bytes. *)
Theorem size_checked_only_when_announced (file : UploadFile) :
  ((exists detail, Main.validate_file file = Raise (HTTPException 413 detail))
   <-> exists n, size file = Some n /\ n <> 0%Z
                 /\ (10 * 1024 * 1024 < n)%Z)
  /\ (forall bytes,
        Main.validate_file (Spec.with_bytes file bytes)
        = Main.validate_file file)
  /\ (size file = None \/ size file = Some 0%Z ->
      (forall bytes detail,
         Main.validate_file (Spec.with_bytes file bytes)
         <> Raise (HTTPException 413 detail))
      /\ (Main.validate_file file = Ok tt ->
          forall bytes,
            Main.validate_file (Spec.with_bytes file bytes) = Ok tt)
      /\ forall name,
           filename file = Some name ->
           endswith (lower name) (str ".pdf") = true ->
           content_type file = None
           \/ content_type file = Some (str "application/pdf") ->
           forall bytes,
             Main.validate_file (Spec.with_bytes file bytes) = Ok tt).
Proof.
  split; [|split].
  - rewrite validate_file_413. unfold Spec.announces_oversize.
    split; intros (n & Hn & H).
    + exists n. split; [exact Hn|]. unfold Main.MAX_FILE_SIZE in H.
      split; [lia|exact H].
    + exists n. split; [exact Hn|]. unfold Main.MAX_FILE_SIZE. lia.
  - reflexivity.
  - intros Hsize.
    assert (Hnot : ~ Spec.announces_oversize file).
    { intros (n & Hn & H). unfold Main.MAX_FILE_SIZE in H.
      destruct Hsize as [Hs|Hs]; rewrite Hs in Hn; [discriminate|].
      injection Hn as <-. lia. }
    split; [|split].
    + intros bytes detail H. apply Hnot, validate_file_413. eauto.
    + intros H bytes. exact H.
    + intros name Hname Hext Hct bytes.
      change (Main.validate_file file = Ok tt).
      unfold Main.validate_file.
      rewrite <- size_check_iff in Hnot.
      destruct (match size file with Some _ => _ | None => _ end);
        [now contradict Hnot|].
      rewrite Hname, Hext.
      destruct name as [|c name]; [discriminate Hext|]. cbn [negb].
      destruct Hct as [-> | ->]; [reflexivity|].
      now rewrite bool_decide_eq_true_2.
Qed.

Lemma size_checked_only_when_announced_witness :
  (size Demo.upload_unsized = None \/ size Demo.upload_unsized = Some 0%Z)
  /\ Main.validate_file Demo.upload_unsized = Ok tt
  /\ forall bytes,
       Main.validate_file (Spec.with_bytes Demo.upload_unsized bytes) = Ok tt.
Proof.
  split; [left; reflexivity|]. split; [reflexivity|].
  apply (proj1 (proj2 (proj2 (proj2
           (size_checked_only_when_announced Demo.upload_unsized))
           (or_introl eq_refl)))).
  reflexivity.
Defined.

(* ===================================================================== *)
(** ** The earlier variant, [app.py] *)
(* ===================================================================== *)

Section Legacy.

Lemma legacy_fold (results : list scored) (st : Main.locals) :
  let st' := fold_left App.analyze_step results st in
  Main.plagiarism_detected st'
  = Main.plagiarism_detected st || existsb (Spec.reaches 0.75) results
  /\ Main.matched_files st'
     = Main.matched_files st
       ++ List.map Spec.matchedSourceFile
            (List.filter (Spec.reaches 0.75) results)
  /\ Main.max_score st'
     = Main.max_score
         (fold_left (Main.analyze_step Main.threshold) results st).
Proof.
  revert st. induction results as [|[doc sc] results IH]; intros st.
  - cbn. now rewrite orb_false_r, app_nil_r.
  - cbn zeta. cbn [fold_left].
    destruct (IH (App.analyze_step st (doc, sc))) as (Hd & Hf & Hm).
    cbn zeta in Hd, Hf, Hm. rewrite Hd, Hf, Hm.
    unfold App.analyze_step, Spec.reaches, Spec.score.
    cbn [existsb List.filter snd].
    split; [|split].
    + destruct (Qle_bool 0.75 sc); cbn;
        [now rewrite orb_true_r|reflexivity].
    + destruct (Qle_bool 0.75 sc); cbn; [|reflexivity].
      now rewrite <- app_assoc.
    + apply fold_max_threshold. unfold Main.analyze_step, Main.threshold.
      now destruct (Qle_bool 0.75 sc).
Qed.

(** In [app.py] the loop lists the [source_file] of every match that
    reaches 0.75, repetitions and absent names included; the flag and the
    maximum are those of [main.py]. *)
Lemma legacy_analyze_results (results : list scored) :
  Main.plagiarism_detected (App.analyze_results results)
  = Main.plagiarism_detected (Main.analyze_results Main.threshold results)
  /\ Main.matched_files (App.analyze_results results)
     = List.map Spec.matchedSourceFile
         (List.filter (Spec.reaches 0.75) results)
  /\ Main.max_score (App.analyze_results results)
     = Main.max_score (Main.analyze_results Main.threshold results).
Proof.
  unfold App.analyze_results.
  destruct (legacy_fold results
              {| Main.plagiarism_detected := false;
                 Main.matched_files := [];
                 Main.max_score := 0%Q |}) as (Hd & Hf & Hm).
  cbn zeta in Hd, Hf, Hm. rewrite Hd, Hf, Hm.
  split; [|split; reflexivity].
  now rewrite analyze_results_detected.
Qed.

Example legacy_lists_a_file_twice :
  Main.matched_files (App.analyze_results Demo.same_file_twice)
  = [PStr Demo.A; PStr Demo.A].
Proof. reflexivity. Qed.

(** In [app.py] the chain output is split in the same way, and an empty
    summary is accepted. *)
Lemma legacy_parse_inline (output : pystr) :
  App.parse_inline output
  = Ok (Spec.summary_of output, Spec.skills_between output).
Proof.
  unfold App.parse_inline, Spec.summary_of, Spec.skills_between.
  change (str "SKILLS:") with Main.SKILLS.
  change (str "SUMMARY:") with Main.SUMMARY.
  rewrite (split_head output Main.SKILLS SKILLS_nonempty),
    (split_length output Main.SKILLS SKILLS_nonempty),
    (split_second output Main.SKILLS SKILLS_nonempty).
  cbn [Res.bind].
  now destruct (Spec.after_first Main.SKILLS output).
Qed.

(** In [app.py] nothing catches a failed insertion: the request is
    answered with status 500. *)
Example legacy_insertion_failure :
  App.post_check_plagiarism Demo.failing_store Demo.upload
  = ({| status_code := 500; content := Json.ServerError |},
     [chain_invoke_called Demo.page_text;
      similarity_search_called (str "foo") 3;
      add_documents_called [App.new_doc Demo.upload (str "foo") (str "bar,baz")]]).
Proof. reflexivity. Qed.

End Legacy.

(** The examples of the specification for the decision. *)
Example decision_at_threshold :
  let st := Main.analyze_results Main.threshold Demo.at_threshold in
  Main.plagiarism_detected st = true
  /\ Main.matched_files st = [PStr Demo.A].
Proof. now split. Qed.

Example decision_below_threshold :
  let st := Main.analyze_results Main.threshold Demo.below_threshold in
  Main.plagiarism_detected st = false
  /\ Main.max_score st = 0.5%Q
  /\ Main.matched_files st = [].
Proof. now repeat split. Qed.

Example decision_same_file_twice :
  Main.matched_files (Main.analyze_results Main.threshold Demo.same_file_twice)
  = [PStr Demo.A].
Proof. reflexivity. Qed.

Example decision_order :
  Main.matched_files (Main.analyze_results Main.threshold Demo.two_files)
  = [PStr Demo.B; PStr Demo.A].
Proof. reflexivity. Qed.

Example decision_empty :
  Main.analyze_results Main.threshold []
  = {| Main.plagiarism_detected := false;
       Main.matched_files := [];
       Main.max_score := 0%Q |}.
Proof. reflexivity. Qed.

(** An upload announcing more than 10 MiB is answered through
    [file_too_large_handler], before any service is called. *)
Example oversized_upload_answered_413 :
  Main.post_check_plagiarism Demo.failing_store Demo.upload_oversized
  = ({| status_code := 413; content := Json.Detail "File too large" |}, []).
Proof. reflexivity. Qed.

(* ===================================================================== *)
(** ** More on the validation of the upload *)
(* ===================================================================== *)

Lemma lower_char_is (c target : N) :
  (97 <= target <= 122)%N ->
  lower_char c = target <-> c = (target - 32)%N \/ c = target.
Proof.
  intros Htarget. unfold lower_char.
  destruct ((65 <=? c)%N && (c <=? 90)%N) eqn:Hupper.
  - apply andb_true_iff in Hupper as [H1 H2].
    apply N.leb_le in H1, H2. lia.
  - apply andb_false_iff in Hupper as [H|H]; apply N.leb_gt in H; lia.
Qed.

Lemma lower_char_dot (c : N) : lower_char c = 46%N <-> c = 46%N.
Proof.
  unfold lower_char.
  destruct ((65 <=? c)%N && (c <=? 90)%N) eqn:Hupper; [|reflexivity].
  apply andb_true_iff in Hupper as [H1 H2].
  apply N.leb_le in H1, H2. lia.
Qed.

(** The test on the extension does not look at the case of the letters. *)
Lemma endswith_lower_pdf (name : pystr) :
  endswith (lower name) (str ".pdf") = true <-> Cases.pdf_name name.
Proof.
  rewrite <- (rev_involutive name). generalize (rev name). clear name.
  intros r. unfold endswith, lower, Cases.pdf_name.
  rewrite <- map_rev, rev_involutive.
  change (rev (str ".pdf")) with [102%N; 100%N; 112%N; 46%N].
  destruct r as [|f [|d [|p [|dot rstem]]]]; cbn [List.map startswith].
  1-4: split; [try discriminate; rewrite ?andb_false_r; discriminate|];
       intros (stem & p' & d' & f' & H & _);
       apply (f_equal (@length N)) in H;
       rewrite length_app in H; cbn in H; lia.
  replace (startswith (List.map lower_char rstem) []) with true
    by now destruct rstem.
  rewrite !andb_true_iff, !N.eqb_eq.
  cbn [rev]. rewrite <- !app_assoc. cbn [app].
  split.
  - intros (Hf & Hd & Hp & Hdot & _). symmetry in Hf, Hd, Hp, Hdot.
    apply lower_char_is in Hf, Hd, Hp; try lia.
    apply (proj1 (lower_char_dot dot)) in Hdot. subst dot.
    exists (rev rstem), p, d, f. repeat split; lia.
  - intros (stem & p' & d' & f' & H & Hp & Hd & Hf).
    change [46%N; p'; d'; f'] with ([46%N] ++ [p'] ++ [d'] ++ [f']) in H.
    change [dot; p; d; f] with ([dot] ++ [p] ++ [d] ++ [f]) in H.
    rewrite !app_assoc in H.
    apply app_inj_tail in H as [H ->].
    apply app_inj_tail in H as [H ->].
    apply app_inj_tail in H as [H ->].
    apply app_inj_tail in H as [H ->].
    repeat split; try reflexivity; symmetry;
      try (apply lower_char_is; lia); now apply lower_char_dot.
Qed.

Lemma content_type_check_iff (ct : option pystr) :
  match ct with
  | None | Some [] => false
  | Some ct => negb (bool_decide (ct = str "application/pdf"))
  end = false
  <-> Cases.acceptable_content_type ct.
Proof.
  unfold Cases.acceptable_content_type.
  destruct ct as [[|c ct]|].
  - split; [tauto|reflexivity].
  - rewrite negb_false_iff, bool_decide_eq_true. split.
    + intros ->. now right; right.
    + intros [H|[H|H]]; congruence.
  - split; [tauto|reflexivity].
Qed.

Lemma validate_file_Ok_iff (file : UploadFile) :
  Main.validate_file file = Ok tt
  <-> ~ Spec.announces_oversize file
      /\ (exists name, filename file = Some name /\ Cases.pdf_name name)
      /\ Cases.acceptable_content_type (content_type file).
Proof.
  rewrite <- size_check_iff, <- content_type_check_iff.
  unfold Main.validate_file.
  destruct (match size file with Some _ => _ | None => _ end).
  - split; [discriminate|]. intros [H _]. now contradict H.
  - destruct (filename file) as [[|c name]|].
    + split; [discriminate|]. intros (_ & (name & [= <-] & H) & _).
      apply endswith_lower_pdf in H. discriminate.
    + destruct (endswith (lower (c :: name)) (str ".pdf")) eqn:Hext; cbn [negb].
      * apply endswith_lower_pdf in Hext.
        destruct (match content_type file with Some _ => _ | None => _ end).
        -- split; [discriminate|]. intros (_ & _ & H). discriminate.
        -- split; [|reflexivity]. intros _.
           split; [discriminate|]. split; [eauto|reflexivity].
      * split; [discriminate|]. intros (_ & (name' & [= <-] & H) & _).
        apply endswith_lower_pdf in H. congruence.
    + split; [discriminate|]. intros (_ & (name & H & _) & _). discriminate.
Qed.

(** X1: [validate_file] accepts an upload if and only if it does not
    announce a size above 10 MiB, its file name ends in [.pdf] in any mix
    of upper and lower case, and its content type is absent, empty or
    [application/pdf]. *)
Theorem validate_file_accepts_iff (file : UploadFile) :
  Main.validate_file file = Ok tt
  <-> ~ Spec.announces_oversize file
      /\ (exists name, filename file = Some name /\ Cases.pdf_name name)
      /\ Cases.acceptable_content_type (content_type file).
Proof. apply validate_file_Ok_iff. Qed.

Lemma validate_file_oversize (file : UploadFile) :
  Spec.announces_oversize file ->
  Main.validate_file file
  = Raise (HTTPException 413 "File size too large (max 10MB)").
Proof.
  intros H. apply size_check_iff in H. unfold Main.validate_file.
  now rewrite H.
Qed.

Lemma validate_file_raises (file : UploadFile) (e : exn) :
  Main.validate_file file = Raise e ->
  exists detail, e = HTTPException 413 detail \/ e = HTTPException 400 detail.
Proof.
  unfold Main.validate_file.
  destruct (match size file with Some _ => _ | None => _ end);
    [intros [= <-]; eauto|].
  destruct (filename file) as [[|c name]|]; try (intros [= <-]; eauto).
  destruct (negb _); [intros [= <-]; eauto|].
  destruct (match content_type file with Some _ => _ | None => _ end);
    [intros [= <-]; eauto|discriminate].
Qed.

(** X2: the four checks of [validate_file] are made in a fixed order,
    and the first that fails decides the error: an announced oversize
    gives status 413 whatever the name; otherwise a missing or empty file
    name gives status 400 with [Filename is required] whatever the content
    type; otherwise a name that does not end in [.pdf] gives status 400
    with [Only PDF files are supported] whatever the content type;
    otherwise an unacceptable content type gives status 400 with its own
    detail.  No other status is raised. *)
Theorem validate_file_first_failure (file : UploadFile) :
  (Spec.announces_oversize file ->
   Main.validate_file file
   = Raise (HTTPException 413 "File size too large (max 10MB)"))
  /\ (~ Spec.announces_oversize file -> Spec.filename_missing file ->
      Main.validate_file file
      = Raise (HTTPException 400 "Filename is required"))
  /\ (forall name,
        ~ Spec.announces_oversize file ->
        filename file = Some name -> name <> [] -> ~ Cases.pdf_name name ->
        Main.validate_file file
        = Raise (HTTPException 400 "Only PDF files are supported"))
  /\ (forall name,
        ~ Spec.announces_oversize file ->
        filename file = Some name -> Cases.pdf_name name ->
        ~ Cases.acceptable_content_type (content_type file) ->
        Main.validate_file file
        = Raise (HTTPException 400
                   "Invalid content type. Expected application/pdf"))
  /\ (forall e, Main.validate_file file = Raise e ->
        exists detail,
          e = HTTPException 413 detail \/ e = HTTPException 400 detail)
  /\ (~ Spec.announces_oversize file -> ~ Spec.filename_missing file ->
      (exists name, filename file = Some name /\ Cases.pdf_name name) ->
      Cases.acceptable_content_type (content_type file) ->
      Main.validate_file file = Ok tt).
Proof.
  pose proof (size_check_iff file) as [Hsize1 Hsize2].
  pose proof (content_type_check_iff (content_type file)) as [Hct1 Hct2].
  split; [apply validate_file_oversize|].
  split; [|split; [|split; [|split; [apply validate_file_raises|]]]].
  - intros Hsize Hmissing. unfold Main.validate_file.
    destruct (match size file with Some _ => _ | None => _ end);
      [contradict Hsize; now apply Hsize1|].
    now destruct Hmissing as [-> | ->].
  - intros name Hsize Hname Hne Hpdf. unfold Main.validate_file.
    destruct (match size file with Some _ => _ | None => _ end);
      [contradict Hsize; now apply Hsize1|].
    rewrite Hname. destruct name as [|c name]; [congruence|].
    rewrite <- endswith_lower_pdf in Hpdf.
    now destruct (endswith (lower (c :: name)) (str ".pdf")).
  - intros name Hsize Hname Hpdf Hct. unfold Main.validate_file.
    destruct (match size file with Some _ => _ | None => _ end);
      [contradict Hsize; now apply Hsize1|].
    rewrite Hname.
    pose proof Hpdf as Hext. apply endswith_lower_pdf in Hext.
    rewrite Hext. destruct name as [|c name]; [discriminate Hext|].
    cbn [negb].
    destruct (match content_type file with Some _ => _ | None => _ end);
      [reflexivity|]. contradict Hct. now apply Hct1.
  - intros Hsize _ Hname Hct. apply validate_file_Ok_iff. now repeat split.
Qed.

Lemma validate_file_first_failure_witness :
  Spec.announces_oversize Demo.upload_oversized
  /\ Main.validate_file Demo.upload_oversized
     = Raise (HTTPException 413 "File size too large (max 10MB)")
  /\ ~ Spec.announces_oversize Cases.upload_empty_name
  /\ Spec.filename_missing Cases.upload_empty_name
  /\ Main.validate_file Cases.upload_empty_name
     = Raise (HTTPException 400 "Filename is required").
Proof.
  assert (H : Spec.announces_oversize Demo.upload_oversized).
  { eexists. split; [reflexivity|]. reflexivity. }
  assert (Hsize : ~ Spec.announces_oversize Cases.upload_empty_name).
  { intros (n & [= <-] & Hn). vm_compute in Hn. discriminate. }
  assert (Hmissing : Spec.filename_missing Cases.upload_empty_name)
    by (right; reflexivity).
  split; [exact H|].
  split; [exact (proj1 (validate_file_first_failure Demo.upload_oversized) H)|].
  split; [exact Hsize|]. split; [exact Hmissing|].
  exact (proj1 (proj2 (validate_file_first_failure Cases.upload_empty_name))
           Hsize Hmissing).
Defined.

(** X3: an upload that announces more than 10 MiB is answered with status
    413 before any service is called, and the detail sent to the client is
    that of [file_too_large_handler], not the one [validate_file]
    raised. *)
Theorem oversize_answered_by_handler (sv : Services) (file : UploadFile) :
  Spec.announces_oversize file ->
  Main.validate_file file
  = Raise (HTTPException 413 "File size too large (max 10MB)")
  /\ Main.post_check_plagiarism sv file
     = ({| status_code := 413; content := Json.Detail "File too large" |}, []).
Proof.
  intros H. apply validate_file_oversize in H.
  split; [exact H|]. now rewrite (post_invalid sv file _ _ H).
Qed.

Lemma oversize_answered_by_handler_witness :
  Spec.announces_oversize Demo.upload_oversized
  /\ Main.post_check_plagiarism Demo.failing_store Demo.upload_oversized
     = ({| status_code := 413; content := Json.Detail "File too large" |}, []).
Proof.
  assert (H : Spec.announces_oversize Demo.upload_oversized).
  { eexists. split; [reflexivity|]. reflexivity. }
  split; [exact H|].
  exact (proj2 (oversize_answered_by_handler Demo.failing_store
                  Demo.upload_oversized H)).
Defined.

(* ===================================================================== *)
(** ** Text extraction *)
(* ===================================================================== *)

(** X4: [extract_full_pdf_text] of [main.py] returns a text exactly when
    the PDF library yields at least one page and the page texts, joined by
    line feeds, are not blank; the text returned is that join and is never
    blank.  Otherwise it raises status 400 for a document without pages,
    for a blank text and for a [FileDataError], and status 500 for any
    other failure of the library. *)
Theorem extract_full_pdf_text_outcomes (sv : Services)
    (bytes : list Byte.byte) :
  (forall text,
     Main.extract_full_pdf_text sv bytes = Ok text
     <-> exists pages,
           fitz_pages sv bytes = Ok pages /\ pages <> []
           /\ text = join [10%N] pages /\ strip text <> [])
  /\ (fitz_pages sv bytes = Ok [] ->
      Main.extract_full_pdf_text sv bytes
      = Raise (HTTPException 400 "PDF file contains no pages"))
  /\ (forall pages,
        fitz_pages sv bytes = Ok pages -> pages <> [] ->
        strip (join [10%N] pages) = [] ->
        Main.extract_full_pdf_text sv bytes
        = Raise (HTTPException 400 "PDF file contains no extractable text"))
  /\ (fitz_pages sv bytes = Raise FileDataError ->
      Main.extract_full_pdf_text sv bytes
      = Raise (HTTPException 400 "Invalid PDF file format"))
  /\ (forall e,
        fitz_pages sv bytes = Raise e -> e <> FileDataError ->
        is_HTTPException e = false ->
        Main.extract_full_pdf_text sv bytes
        = Raise (HTTPException 500 "Failed to extract text from PDF")).
Proof.
  unfold Main.extract_full_pdf_text.
  destruct (fitz_pages sv bytes) as [pages|e]; cbn [Res.bind Res.try_except].
  - split; [|split; [|split; [|split]]]; try discriminate.
    + intros text. destruct pages as [|page pages]; cbn [length Nat.eqb].
      * split; [discriminate|]. intros (pages & [= <-] & H & _). congruence.
      * destruct (strip (join [10%N] (page :: pages))) eqn:Hstrip.
        -- split; [discriminate|].
           intros (pages' & [= <-] & _ & -> & H). congruence.
        -- split.
           ++ intros [= <-]. exists (page :: pages).
              repeat split; try discriminate.
              change (strip (join [10%N] (page :: pages)) <> []).
              now rewrite Hstrip.
           ++ intros (pages' & [= <-] & _ & -> & _). reflexivity.
    + intros [= ->]. reflexivity.
    + intros pages' [= <-] Hne Hblank.
      destruct pages as [|page pages]; [congruence|].
      cbn [length Nat.eqb]. now rewrite Hblank.
  - split; [|split; [|split; [|split]]]; try discriminate.
    + intros text. split.
      * destruct e; discriminate.
      * intros (pages & H & _). discriminate.
    + intros [= ->]. reflexivity.
    + intros e' [= <-] Hne Hhttp. destruct e; try reflexivity.
      * discriminate.
      * congruence.
Qed.

Lemma extract_full_pdf_text_outcomes_witness :
  fitz_pages Demo.failing_store [] = Ok [Demo.page_text]
  /\ Main.extract_full_pdf_text Demo.failing_store [] = Ok Demo.page_text.
Proof.
  split; [reflexivity|].
  apply (proj1 (extract_full_pdf_text_outcomes Demo.failing_store [])).
  exists [Demo.page_text]. repeat split; vm_compute; discriminate.
Defined.

(** In [main.py] the extraction only raises [HTTPException]s of status 400
    or 500, unless the PDF library itself raises an [HTTPException]. *)
Lemma extract_raises_http (sv : Services) (bytes : list Byte.byte) (e : exn) :
  (forall e', fitz_pages sv bytes = Raise e' -> is_HTTPException e' = false) ->
  Main.extract_full_pdf_text sv bytes = Raise e ->
  exists detail, e = HTTPException 400 detail \/ e = HTTPException 500 detail.
Proof.
  intros Hfitz. unfold Main.extract_full_pdf_text.
  destruct (fitz_pages sv bytes) as [pages|e']; cbn [Res.bind Res.try_except].
  - destruct (length pages =? 0)%nat; [intros [= <-]; eauto|].
    destruct (strip _); [intros [= <-]; eauto|discriminate].
  - specialize (Hfitz e' eq_refl).
    destruct e'; try discriminate; intros [= <-]; eauto.
Qed.

(* ===================================================================== *)
(** ** The answers of the endpoint *)
(* ===================================================================== *)

Section Endpoint.

Import Main.

Variable sv : Services.

Ltac run_post :=
  unfold post_check_plagiarism, check_plagiarism, admit_document,
    Req.try_except, Req.bind, Req.lift, Req.call, Req.raise, Req.ret.

(** The answer once validation has passed and extraction has failed. *)
Lemma post_unextracted (file : UploadFile) (code : Z) (detail : string) :
  validate_file file = Ok tt ->
  extract_full_pdf_text sv (file_bytes file)
  = Raise (HTTPException code detail) ->
  post_check_plagiarism sv file
  = (if (code =? 413)%Z then file_too_large_handler
     else {| status_code := code; content := Json.Detail detail |}, []).
Proof. intros Hv Hx. run_post. now rewrite Hv, Hx. Qed.

Lemma post_chain_failed (file : UploadFile) (text : pystr) (e : exn) :
  validate_file file = Ok tt ->
  extract_full_pdf_text sv (file_bytes file) = Ok text ->
  chain_invoke sv text = Raise e ->
  post_check_plagiarism sv file
  = ({| status_code := 500;
        content := Json.Detail "Failed to process document with AI model" |},
     [chain_invoke_called text]).
Proof. intros Hv Hx Hc. run_post. now rewrite Hv, Hx, Hc. Qed.

Lemma post_search_failed (file : UploadFile) (text output summary skills : pystr)
    (e : exn) :
  validate_file file = Ok tt ->
  extract_full_pdf_text sv (file_bytes file) = Ok text ->
  chain_invoke sv text = Ok output ->
  parse_chain_output output = Ok (summary, skills) ->
  similarity_search_with_score sv summary 3 = Raise e ->
  post_check_plagiarism sv file
  = ({| status_code := 500;
        content := Json.Detail "Failed to search for similar documents" |},
     [chain_invoke_called text; similarity_search_called summary 3]).
Proof. intros Hv Hx Hc Hp Hs. run_post. now rewrite Hv, Hx, Hc, Hp, Hs. Qed.

End Endpoint.

Lemma parse_raises_500 (output : pystr) (e : exn) :
  Main.parse_chain_output output = Raise e ->
  e = HTTPException 500 "Failed to process document content".
Proof.
  rewrite parse_chain_output_eq.
  destruct (Spec.summary_of output); congruence.
Qed.

(** X5: provided the PDF library raises no [HTTPException] of its own,
    every request to [main.py] is answered either with status 200 and the
    result body, or with status 400, 413 or 500 and a detail message; no
    other exception leaves the handler. *)
Theorem endpoint_statuses (sv : Services) (file : UploadFile) :
  (forall e, fitz_pages sv (file_bytes file) = Raise e ->
     is_HTTPException e = false) ->
  let response := (Main.post_check_plagiarism sv file).1 in
  (status_code response = 200%Z /\ exists d, content response = Json.Data d)
  \/ ((status_code response = 400%Z \/ status_code response = 413%Z
       \/ status_code response = 500%Z)
      /\ exists detail, content response = Json.Detail detail).
Proof.
  intros Hfitz. cbn zeta.
  destruct (Main.validate_file file) as [[]|e1] eqn:Hv.
  2:{ destruct (validate_file_raises file e1 Hv) as [detail [-> | ->]];
      rewrite (post_invalid sv file _ _ Hv); cbn; right; eauto 6. }
  destruct (Main.extract_full_pdf_text sv (file_bytes file)) as [text|e2]
    eqn:Hx.
  2:{ destruct (extract_raises_http sv _ e2 Hfitz Hx) as [detail [-> | ->]];
      rewrite (post_unextracted sv file _ _ Hv Hx); cbn; right; eauto 6. }
  destruct (chain_invoke sv text) as [output|e3] eqn:Hc.
  2:{ rewrite (post_chain_failed sv file text e3 Hv Hx Hc). cbn.
      right; eauto 6. }
  destruct (Main.parse_chain_output output) as [[summary skills]|e4] eqn:Hp.
  2:{ rewrite (parse_raises_500 output e4 Hp) in Hp.
      rewrite (post_unparsed sv file text output _ _ Hv Hx Hc Hp). cbn.
      right; eauto 6. }
  destruct (similarity_search_with_score sv summary 3) as [results|e5] eqn:Hs.
  2:{ rewrite (post_search_failed sv file text output summary skills e5
                 Hv Hx Hc Hp Hs). cbn. right; eauto 6. }
  rewrite (post_decided sv file text output summary skills results).
  - left. cbn. eauto.
  - now repeat split.
Qed.

Lemma endpoint_statuses_witness :
  (forall e, fitz_pages Demo.failing_store (file_bytes Demo.upload_unnamed)
             = Raise e -> is_HTTPException e = false)
  /\ status_code
       (Main.post_check_plagiarism Demo.failing_store Demo.upload_unnamed).1
     = 400%Z.
Proof.
  assert (H : forall e,
            fitz_pages Demo.failing_store (file_bytes Demo.upload_unnamed)
            = Raise e -> is_HTTPException e = false) by discriminate.
  split; [exact H|].
  destruct (endpoint_statuses Demo.failing_store Demo.upload_unnamed H)
    as [[_ [d Hd]]|_]; [discriminate Hd|reflexivity].
Defined.

(** Case analysis on the membership of an event in an explicit trace. *)
Ltac split_elem H :=
  repeat match type of H with
         | _ ∈ [] => exfalso; now apply not_elem_of_nil in H
         | _ ∈ _ :: _ =>
             apply elem_of_cons in H as [H|H]; [try discriminate H|]
         end.

(** X6: the services are called in a fixed order and each at most once:
    the chain, then the search with [k = 3], then the insertion of one
    document, then the index statistics.  Nothing is called when
    validation or extraction fails; the chain receives the extracted
    text, the search the summary parsed from the chain's output, and the
    statistics are asked only after a successful insertion. *)
Theorem calls_in_order (sv : Services) (file : UploadFile) :
  let calls := (Main.post_check_plagiarism sv file).2 in
  Cases.call_sequence calls
  /\ (Main.validate_file file <> Ok tt -> calls = [])
  /\ (forall e, Main.extract_full_pdf_text sv (file_bytes file) = Raise e ->
        calls = [])
  /\ (forall text, chain_invoke_called text ∈ calls ->
        Main.validate_file file = Ok tt
        /\ Main.extract_full_pdf_text sv (file_bytes file) = Ok text)
  /\ (forall query k, similarity_search_called query k ∈ calls ->
        k = 3%Z
        /\ exists text output skills,
             chain_invoke sv text = Ok output
             /\ Main.parse_chain_output output = Ok (query, skills))
  /\ (describe_index_stats_called ∈ calls ->
      exists doc, add_documents_called [doc] ∈ calls
                  /\ add_documents sv [doc] = Ok tt).
Proof.
  cbn zeta.
  unfold Main.post_check_plagiarism, Main.check_plagiarism,
    Main.admit_document, Req.try_except, Req.bind, Req.lift, Req.call,
    Req.raise, Req.ret.
  destruct (Main.validate_file file) as [[]|e1] eqn:Hv.
  2:{ destruct e1; cbn; (split; [constructor|]); repeat split;
        try congruence; intros; exfalso; eapply not_elem_of_nil; eassumption. }
  destruct (Main.extract_full_pdf_text sv (file_bytes file)) as [text|e2]
    eqn:Hx.
  2:{ destruct e2; cbn; (split; [constructor|]); repeat split;
        try congruence; intros; exfalso; eapply not_elem_of_nil; eassumption. }
  destruct (chain_invoke sv text) as [output|e3] eqn:Hc.
  2:{ cbn. split; [constructor|]. split; [congruence|].
      split; [discriminate|]. split; [|split].
      - intros text' H. split_elem H. injection H as ->. now split.
      - intros query k H. split_elem H.
      - intros H. split_elem H. }
  destruct (Main.parse_chain_output output) as [[summary skills]|e4] eqn:Hp.
  2:{ assert (He := parse_raises_500 output e4 Hp). subst e4. cbn.
      split; [constructor|]. split; [congruence|].
      split; [discriminate|]. split; [|split].
      - intros text' H. split_elem H. injection H as ->. now split.
      - intros query k H. split_elem H.
      - intros H. split_elem H. }
  destruct (similarity_search_with_score sv summary 3) as [results|e5] eqn:Hs.
  2:{ cbn. split; [constructor|]. split; [congruence|].
      split; [discriminate|]. split; [|split].
      - intros text' H. split_elem H. injection H as ->. now split.
      - intros query k H. split_elem H. injection H as -> ->. eauto 7.
      - intros H. split_elem H. }
  destruct (Main.plagiarism_detected
              (Main.analyze_results Main.threshold results)); cbn [negb].
  { cbn. split; [constructor|]. split; [congruence|].
    split; [discriminate|]. split; [|split].
    - intros text' H. split_elem H. injection H as ->. now split.
    - intros query k H. split_elem H. injection H as -> ->. eauto 7.
    - intros H. split_elem H. }
  set (doc := Main.new_doc file summary skills).
  destruct (add_documents sv [doc]) as [[]|e6] eqn:Hadd;
    [destruct (describe_index_stats sv)|]; cbn;
    (split; [constructor|]); (split; [congruence|]);
    (split; [discriminate|]); (split; [|split]).
  all: try (intros text' H; split_elem H; injection H as ->; now split).
  all: try (intros query k H; split_elem H; injection H as -> ->; eauto 7).
  1-2: intros _; exists doc; split; [|exact Hadd];
       do 2 (apply elem_of_cons; right); apply elem_of_cons; now left.
  intros H. split_elem H.
Qed.

(** X7: whatever the chain raises, the request is answered with status 500
    and the detail [Failed to process document with AI model]; the search
    and the insertion are not attempted. *)
Theorem chain_failure_answered_500 (sv : Services) (file : UploadFile)
    (text : pystr) (e : exn) :
  Main.validate_file file = Ok tt ->
  Main.extract_full_pdf_text sv (file_bytes file) = Ok text ->
  chain_invoke sv text = Raise e ->
  Main.post_check_plagiarism sv file
  = ({| status_code := 500;
        content := Json.Detail "Failed to process document with AI model" |},
     [chain_invoke_called text]).
Proof. apply post_chain_failed. Qed.

Lemma chain_failure_answered_500_witness :
  Main.post_check_plagiarism Cases.chain_down Demo.upload
  = ({| status_code := 500;
        content := Json.Detail "Failed to process document with AI model" |},
     [chain_invoke_called Demo.page_text]).
Proof.
  apply (chain_failure_answered_500 Cases.chain_down Demo.upload
           Demo.page_text (OtherError "Chain processing failed"));
    reflexivity.
Defined.

(** X8: whatever the search raises, the request is answered with status
    500 and the detail [Failed to search for similar documents]; nothing
    is inserted into the corpus. *)
Theorem search_failure_answered_500 (sv : Services) (file : UploadFile)
    (text output summary skills : pystr) (e : exn) :
  Main.validate_file file = Ok tt ->
  Main.extract_full_pdf_text sv (file_bytes file) = Ok text ->
  chain_invoke sv text = Ok output ->
  Main.parse_chain_output output = Ok (summary, skills) ->
  similarity_search_with_score sv summary 3 = Raise e ->
  Main.post_check_plagiarism sv file
  = ({| status_code := 500;
        content := Json.Detail "Failed to search for similar documents" |},
     [chain_invoke_called text; similarity_search_called summary 3])
  /\ Spec.insertions (Main.post_check_plagiarism sv file).2 = 0.
Proof.
  intros Hv Hx Hc Hp Hs.
  now rewrite (post_search_failed sv file _ _ _ _ _ Hv Hx Hc Hp Hs).
Qed.

Lemma search_failure_answered_500_witness :
  Main.post_check_plagiarism Cases.search_down Demo.upload
  = ({| status_code := 500;
        content := Json.Detail "Failed to search for similar documents" |},
     [chain_invoke_called Demo.page_text;
      similarity_search_called (str "foo") 3]).
Proof.
  apply (search_failure_answered_500 Cases.search_down Demo.upload
           Demo.page_text Demo.output_full (str "foo") (str "bar,baz")
           (OtherError "search failed"));
    reflexivity.
Defined.

(** X9: an exception of the index statistics call, made after a
    successful insertion, is swallowed like one of the insertion itself:
    the request is answered with status 200 and the same body, and the
    document has been inserted. *)
Theorem stats_failure_swallowed (sv : Services) (file : UploadFile)
    (text output summary skills : pystr) (results : list scored) (e : exn) :
  Spec.reaches_decision sv file text output summary skills results ->
  Main.plagiarism_detected (Main.analyze_results Main.threshold results)
  = false ->
  add_documents sv [Main.new_doc file summary skills] = Ok tt ->
  describe_index_stats sv = Raise e ->
  Main.post_check_plagiarism sv file
  = (Spec.decision_response results,
     [chain_invoke_called text; similarity_search_called summary 3;
      add_documents_called [Main.new_doc file summary skills];
      describe_index_stats_called])
  /\ status_code (Spec.decision_response results) = 200%Z.
Proof.
  intros H Hd Hadd Hstats. rewrite (post_decided sv file _ _ _ _ _ H).
  unfold Spec.admission_calls. now rewrite Hd, Hadd.
Qed.

Lemma stats_failure_swallowed_witness :
  status_code (Main.post_check_plagiarism Cases.stats_down Demo.upload).1
  = 200%Z
  /\ (Main.post_check_plagiarism Cases.stats_down Demo.upload).2
     = [chain_invoke_called Demo.page_text;
        similarity_search_called (str "foo") 3;
        add_documents_called
          [Main.new_doc Demo.upload (str "foo") (str "bar,baz")];
        describe_index_stats_called].
Proof.
  destruct (stats_failure_swallowed Cases.stats_down Demo.upload
              Demo.page_text Demo.output_full (str "foo") (str "bar,baz")
              Demo.below_threshold (OtherError "stats failed"))
    as [Hpost Hstatus].
  - repeat split; reflexivity.
  - reflexivity.
  - reflexivity.
  - reflexivity.
  - rewrite Hpost. split; [exact Hstatus|reflexivity].
Defined.

(* ===================================================================== *)
(** ** The document handed to the corpus *)
(* ===================================================================== *)

Lemma new_doc_lookup (file : UploadFile) (summary skills key : pystr) :
  dict_get (metadata (Main.new_doc file summary skills)) key
  = if bool_decide (key = str "source_file")
    then match filename file with Some n => PStr n | None => PNone end
    else if bool_decide (key = str "skills") then PStr skills
    else if bool_decide (key = str "file_size")
    then PInt (Z.of_nat (length (file_bytes file)))
    else PNone.
Proof.
  unfold dict_get, Main.new_doc. cbn [metadata].
  repeat case_bool_decide; subst.
  - now rewrite lookup_insert_eq.
  - rewrite lookup_insert_ne by discriminate. now rewrite lookup_insert_eq.
  - rewrite !lookup_insert_ne by discriminate.
    now rewrite lookup_singleton_eq.
  - rewrite !lookup_insert_ne by congruence.
    now rewrite lookup_singleton_ne by congruence.
Qed.

(** X10: when no plagiarism is detected, exactly one document is handed to
    [add_documents]: its content is the parsed summary, which is not
    empty, and its metadata hold the upload's non-empty file name under
    [source_file], the parsed skills under [skills] and the number of
    bytes read under [file_size], and nothing else. *)
Theorem inserted_document (sv : Services) (file : UploadFile)
    (text output summary skills : pystr) (results : list scored) :
  Spec.reaches_decision sv file text output summary skills results ->
  Main.plagiarism_detected (Main.analyze_results Main.threshold results)
  = false ->
  exists doc name,
    List.filter
      (fun ev => match ev with add_documents_called _ => true | _ => false end)
      (Main.post_check_plagiarism sv file).2
    = [add_documents_called [doc]]
    /\ page_content doc = summary /\ summary <> []
    /\ filename file = Some name /\ name <> []
    /\ dict_get (metadata doc) (str "source_file") = PStr name
    /\ dict_get (metadata doc) (str "skills") = PStr skills
    /\ dict_get (metadata doc) (str "file_size")
       = PInt (Z.of_nat (length (file_bytes file)))
    /\ forall key,
         key <> str "source_file" -> key <> str "skills" ->
         key <> str "file_size" ->
         dict_get (metadata doc) key = PNone.
Proof.
  intros H Hd. pose proof H as (Hv & _ & _ & Hp & _).
  apply validate_file_Ok_iff in Hv as (_ & (name & Hname & Hpdf) & _).
  exists (Main.new_doc file summary skills), name.
  rewrite (post_decided sv file _ _ _ _ _ H). cbn [snd].
  unfold Spec.admission_calls. rewrite Hd.
  split; [now destruct (add_documents sv _)|].
  split; [reflexivity|]. split.
  { rewrite parse_chain_output_eq in Hp.
    destruct (Spec.summary_of output) eqn:Hsum; [discriminate|].
    injection Hp as <- _. discriminate. }
  split; [exact Hname|]. split.
  { destruct Hpdf as (stem & p & d & f & -> & _). now destruct stem. }
  rewrite !new_doc_lookup, Hname.
  split; [reflexivity|]. split; [reflexivity|]. split; [reflexivity|].
  intros key H1 H2 H3. rewrite new_doc_lookup.
  now rewrite !bool_decide_eq_false_2.
Qed.

Lemma inserted_document_witness :
  exists doc name,
    List.filter
      (fun ev => match ev with add_documents_called _ => true | _ => false end)
      (Main.post_check_plagiarism Demo.failing_store Demo.upload).2
    = [add_documents_called [doc]]
    /\ page_content doc = str "foo"
    /\ filename Demo.upload = Some name
    /\ dict_get (metadata doc) (str "source_file") = PStr name.
Proof.
  destruct (inserted_document Demo.failing_store Demo.upload Demo.page_text
              Demo.output_full (str "foo") (str "bar,baz")
              Demo.below_threshold)
    as (doc & name & H1 & H2 & _ & H3 & _ & H4 & _).
  - repeat split; reflexivity.
  - reflexivity.
  - exists doc, name. now repeat split.
Defined.

(** X11: a document admitted by [main.py] is found again under its file
    name: whenever it comes back from the search with a score of at least
    0.75, plagiarism is detected and the file name of the upload it came
    from is listed in [matched_files]. *)
Theorem admitted_document_is_reported (file : UploadFile)
    (summary skills : pystr) (results : list scored) (s : Q) :
  Main.validate_file file = Ok tt ->
  (Main.new_doc file summary skills, s) ∈ results ->
  (0.75 <= s)%Q ->
  let st := Main.analyze_results Main.threshold results in
  Main.plagiarism_detected st = true
  /\ exists name, filename file = Some name
                  /\ PStr name ∈ Main.matched_files st.
Proof.
  intros Hv Hin Hs. cbn zeta.
  apply validate_file_Ok_iff in Hv as (_ & (name & Hname & Hpdf) & _).
  split.
  - rewrite analyze_results_detected. apply existsb_reaches. eauto.
  - exists name. split; [exact Hname|].
    rewrite analyze_results_files. apply elem_of_matchedFiles_named.
    exists (Main.new_doc file summary skills, s).
    split; [exact Hin|]. split; [exact Hs|].
    unfold Spec.matchedSourceFile. cbn [fst].
    rewrite new_doc_lookup, Hname. split; [reflexivity|].
    destruct Hpdf as (stem & p & d & f & -> & _). now destruct stem.
Qed.

Lemma admitted_document_is_reported_witness :
  Main.validate_file Demo.upload = Ok tt
  /\ exists name,
       filename Demo.upload = Some name
       /\ PStr name
          ∈ Main.matched_files
              (Main.analyze_results Main.threshold
                 [(Main.new_doc Demo.upload (str "foo") [], 0.75%Q)]).
Proof.
  split; [reflexivity|].
  apply (admitted_document_is_reported Demo.upload (str "foo") []
           [(Main.new_doc Demo.upload (str "foo") [], 0.75%Q)] 0.75%Q).
  - reflexivity.
  - apply elem_of_cons. now left.
  - vm_compute. discriminate.
Defined.

(** X12: a document admitted by [app.py] from an upload without a file
    name carries no usable [source_file]: when it comes back from the
    search of [main.py] with a score of at least 0.75, plagiarism is
    detected but the match is not listed in [matched_files]. *)
Theorem unnamed_legacy_document_is_not_listed (file : UploadFile)
    (summary skills : pystr) (results : list scored) (s : Q) :
  Spec.filename_missing file ->
  (App.new_doc file summary skills, s) ∈ results ->
  (0.75 <= s)%Q ->
  let st := Main.analyze_results Main.threshold results in
  Main.plagiarism_detected st = true
  /\ (Spec.matchedSourceFile (App.new_doc file summary skills, s)
      ∉ Main.matched_files st)
  /\ ((forall r, r ∈ results -> r = (App.new_doc file summary skills, s)) ->
      Main.matched_files st = []).
Proof.
  intros Hmissing Hin Hs. cbn zeta.
  assert (Hfalsy : truthy (Spec.matchedSourceFile
                             (App.new_doc file summary skills, s)) = false).
  { unfold Spec.matchedSourceFile, dict_get, App.new_doc. cbn [fst metadata].
    rewrite lookup_insert_eq. now destruct Hmissing as [-> | ->]. }
  split; [|split].
  - rewrite analyze_results_detected. apply existsb_reaches. eauto.
  - rewrite analyze_results_files. intros H.
    apply elem_of_matchedFiles_named in H as (_ & _ & _ & _ & H). congruence.
  - intros Hall. rewrite analyze_results_files.
    destruct (Spec.matchedFiles_named Main.threshold results) as [|v l] eqn:Hl;
      [reflexivity|].
    assert (Hv : v ∈ Spec.matchedFiles_named Main.threshold results)
      by (rewrite Hl; apply elem_of_cons; now left).
    apply elem_of_matchedFiles_named in Hv as (r & Hr & _ & <- & Htruthy).
    rewrite (Hall r Hr) in Htruthy. congruence.
Qed.

Lemma unnamed_legacy_document_is_not_listed_witness :
  Spec.filename_missing Demo.upload_unnamed
  /\ Main.plagiarism_detected
       (Main.analyze_results Main.threshold
          [(App.new_doc Demo.upload_unnamed (str "foo") [], 0.9%Q)]) = true
  /\ Main.matched_files
       (Main.analyze_results Main.threshold
          [(App.new_doc Demo.upload_unnamed (str "foo") [], 0.9%Q)]) = [].
Proof.
  assert (H : Spec.filename_missing Demo.upload_unnamed) by now left.
  split; [exact H|].
  destruct (unnamed_legacy_document_is_not_listed Demo.upload_unnamed
              (str "foo") []
              [(App.new_doc Demo.upload_unnamed (str "foo") [], 0.9%Q)]
              0.9%Q H) as (Hd & _ & Hfiles).
  - apply elem_of_cons. now left.
  - vm_compute. discriminate.
  - split; [exact Hd|]. apply Hfiles.
    intros r Hr. now apply list_elem_of_singleton in Hr.
Defined.

(* ===================================================================== *)
(** ** More on the decision *)
(* ===================================================================== *)

Lemma fold_max_unchanged (t : Q) (results : list scored) (st : Main.locals) :
  (forall r, r ∈ results -> (Spec.score r <= Main.max_score st)%Q) ->
  Main.max_score (fold_left (Main.analyze_step t) results st)
  = Main.max_score st.
Proof.
  revert st. induction results as [|r results IH]; intros st Hall;
    [reflexivity|].
  cbn [fold_left].
  assert (Hstep : Main.max_score (Main.analyze_step t st r)
                  = Main.max_score st).
  { rewrite analyze_step_max.
    assert (Hr : (Spec.score r <= Main.max_score st)%Q)
      by (apply Hall, elem_of_cons; now left).
    apply Qle_bool_iff in Hr. now rewrite Hr. }
  rewrite IH; [exact Hstep|].
  intros r' Hr'. rewrite Hstep. apply Hall, elem_of_cons. now right.
Qed.

Lemma length_first_occurrences (l : list pyval) :
  length (Spec.first_occurrences l) <= length l.
Proof.
  induction l as [|x l IH]; simpl; [lia|].
  pose proof (List.filter_length_le
                (fun y => negb (bool_decide (y = x)))
                (Spec.first_occurrences l)).
  lia.
Qed.

(** X13: the decision does not depend on the order of the matches: two
    orderings of the same matches give the same [plagiarism_detected],
    the same [max_score] and the same files in [matched_files]; only the
    order of [matched_files] can differ. *)
Theorem decision_order_independent (results results' : list scored) :
  results ≡ₚ results' ->
  let st := Main.analyze_results Main.threshold results in
  let st' := Main.analyze_results Main.threshold results' in
  Main.plagiarism_detected st = Main.plagiarism_detected st'
  /\ (Main.max_score st == Main.max_score st')%Q
  /\ Main.matched_files st ≡ₚ Main.matched_files st'.
Proof.
  intros Hperm. cbn zeta. split; [|split].
  - rewrite !analyze_results_detected. apply eq_true_iff_eq.
    rewrite !existsb_reaches.
    split; intros (r & Hr & H); exists r; split; try exact H.
    + now rewrite <- Hperm.
    + now rewrite Hperm.
  - unfold Main.analyze_results.
    set (st0 := {| Main.plagiarism_detected := false;
                   Main.matched_files := [];
                   Main.max_score := 0%Q |}).
    destruct (fold_max Main.threshold results st0) as (Hge & Hall & Hsrc).
    destruct (fold_max Main.threshold results' st0) as (Hge' & Hall' & Hsrc').
    cbn zeta in *. apply Qle_antisym.
    + destruct Hsrc as [-> | (r & Hr & ->)]; [exact Hge'|].
      apply Hall'. now rewrite <- Hperm.
    + destruct Hsrc' as [-> | (r & Hr & ->)]; [exact Hge|].
      apply Hall. now rewrite Hperm.
  - rewrite !analyze_results_files. apply NoDup_Permutation.
    + apply NoDup_first_occurrences.
    + apply NoDup_first_occurrences.
    + intros v. rewrite !elem_of_matchedFiles_named.
      split; intros (r & Hr & H); exists r; split; try exact H.
      * now rewrite <- Hperm.
      * now rewrite Hperm.
Qed.

Lemma decision_order_independent_witness :
  Cases.ranked ≡ₚ Cases.unranked
  /\ Main.matched_files (Main.analyze_results Main.threshold Cases.ranked)
     ≡ₚ Main.matched_files
          (Main.analyze_results Main.threshold Cases.unranked)
  /\ Main.matched_files (Main.analyze_results Main.threshold Cases.ranked)
     <> Main.matched_files
          (Main.analyze_results Main.threshold Cases.unranked).
Proof.
  assert (H : Cases.ranked ≡ₚ Cases.unranked) by apply Permutation_swap.
  split; [exact H|]. split.
  - exact (proj2 (proj2 (decision_order_independent _ _ H))).
  - vm_compute. discriminate.
Defined.

(** X14: after the loop, plagiarism is detected exactly when [max_score]
    is at least 0.75, whatever the scores are. *)
Theorem detected_iff_max_score_reaches_threshold (results : list scored) :
  let st := Main.analyze_results Main.threshold results in
  Main.plagiarism_detected st = true <-> (0.75 <= Main.max_score st)%Q.
Proof.
  cbn zeta. rewrite analyze_results_detected, existsb_reaches.
  unfold Main.analyze_results.
  set (st0 := {| Main.plagiarism_detected := false;
                 Main.matched_files := [];
                 Main.max_score := 0%Q |}).
  destruct (fold_max Main.threshold results st0) as (_ & Hall & Hsrc).
  cbn zeta in *. split.
  - intros (r & Hr & Hreach). eapply Qle_trans; [exact Hreach|]. now apply Hall.
  - intros Hm. destruct Hsrc as [Hsrc | (r & Hr & Hsrc)].
    + rewrite Hsrc in Hm. vm_compute in Hm. now contradict Hm.
    + exists r. split; [exact Hr|]. now rewrite <- Hsrc.
Qed.

(** X15: [max_score] starts at [0] and is only raised, so it is never
    negative; when no score is positive it stays [0], and when every score
    is negative it is the score of no match. *)
Theorem max_score_never_negative (results : list scored) :
  let m := Main.max_score (Main.analyze_results Main.threshold results) in
  (0 <= m)%Q
  /\ ((forall r, r ∈ results -> (Spec.score r <= 0)%Q) -> m = 0%Q)
  /\ ((forall r, r ∈ results -> (Spec.score r < 0)%Q) ->
      forall r, r ∈ results -> ~ (m == Spec.score r)%Q).
Proof.
  cbn zeta. unfold Main.analyze_results.
  set (st0 := {| Main.plagiarism_detected := false;
                 Main.matched_files := [];
                 Main.max_score := 0%Q |}).
  destruct (fold_max Main.threshold results st0) as (Hge & _ & _).
  cbn zeta in Hge. split; [exact Hge|].
  assert (Hzero : (forall r, r ∈ results -> (Spec.score r <= 0)%Q) ->
            Main.max_score
              (fold_left (Main.analyze_step Main.threshold) results st0)
            = 0%Q).
  { intros Hall. now rewrite fold_max_unchanged. }
  split; [exact Hzero|].
  intros Hneg r Hr Heq. rewrite Hzero in Heq.
  - specialize (Hneg r Hr). rewrite <- Heq in Hneg. now apply Qlt_irrefl in Hneg.
  - intros r' Hr'. apply Qlt_le_weak. now apply Hneg.
Qed.

Lemma max_score_never_negative_witness :
  (forall r, r ∈ Cases.opposite -> (Spec.score r <= 0)%Q)
  /\ Main.max_score (Main.analyze_results Main.threshold Cases.opposite)
     = 0%Q.
Proof.
  assert (H : forall r, r ∈ Cases.opposite -> (Spec.score r <= 0)%Q).
  { intros r Hr. unfold Cases.opposite in Hr.
    split_elem Hr; subst r; vm_compute; discriminate. }
  split; [exact H|].
  exact (proj1 (proj2 (max_score_never_negative Cases.opposite)) H).
Defined.

(** X16: the two variants of the loop agree on [plagiarism_detected] and
    on [max_score]; [app.py] lists the [source_file] of every match that
    reaches 0.75, one entry per match, and the list of [main.py] is that
    list without its empty or absent names and without its repetitions. *)
Theorem legacy_decision_compared (results : list scored) :
  let st := Main.analyze_results Main.threshold results in
  let legacy := App.analyze_results results in
  Main.plagiarism_detected legacy = Main.plagiarism_detected st
  /\ Main.max_score legacy = Main.max_score st
  /\ Main.matched_files legacy
     = List.map Spec.matchedSourceFile
         (List.filter (Spec.reaches 0.75) results)
  /\ Main.matched_files st
     = Spec.first_occurrences
         (List.filter truthy (Main.matched_files legacy))
  /\ length (Main.matched_files st) <= length (Main.matched_files legacy)
  /\ length (Main.matched_files legacy) <= length results.
Proof.
  cbn zeta.
  destruct (legacy_analyze_results results) as (Hd & Hf & Hm).
  split; [exact Hd|]. split; [exact Hm|]. split; [exact Hf|].
  rewrite analyze_results_files, Hf. split; [reflexivity|]. split.
  - unfold Spec.matchedFiles_named.
    etransitivity; [apply length_first_occurrences|].
    apply List.filter_length_le.
  - rewrite length_map. apply List.filter_length_le.
Qed.

(* ===================================================================== *)
(** ** Trimming *)
(* ===================================================================== *)

Section Trimming.

Lemma head_rev {A} (s : list A) : head (rev s) = last s.
Proof.
  induction s as [|x s _] using rev_ind; [reflexivity|].
  now rewrite rev_app_distr, last_snoc.
Qed.

Lemma forallb_rev {A} (p : A -> bool) (l : list A) :
  forallb p (rev l) = forallb p l.
Proof.
  induction l as [|x l IH]; [reflexivity|].
  cbn. rewrite List.forallb_app, IH. cbn.
  rewrite andb_true_r. apply andb_comm.
Qed.

Lemma lstrip_spec (s : pystr) :
  exists ws, s = ws ++ lstrip s /\ forallb isspace ws = true.
Proof.
  induction s as [|c s (ws & Hs & Hws)]; [now exists []|].
  cbn [lstrip]. destruct (isspace c) eqn:Hc.
  - exists (c :: ws). cbn. now rewrite Hc, <- Hs.
  - now exists [].
Qed.

Lemma lstrip_head (s : pystr) (c : N) :
  head (lstrip s) = Some c -> isspace c = false.
Proof.
  induction s as [|c' s IH]; [discriminate|].
  cbn [lstrip]. destruct (isspace c') eqn:Hc; [exact IH|].
  now intros [= <-].
Qed.

Lemma lstrip_spaces (ws s : pystr) :
  forallb isspace ws = true -> lstrip (ws ++ s) = lstrip s.
Proof.
  induction ws as [|c ws IH]; [reflexivity|]. cbn.
  intros H. apply andb_true_iff in H as [-> H]. now apply IH.
Qed.

Lemma lstrip_all_spaces (ws : pystr) :
  forallb isspace ws = true -> lstrip ws = [].
Proof.
  intros H. rewrite <- (app_nil_r ws). now rewrite lstrip_spaces.
Qed.

Lemma lstrip_id (s : pystr) :
  (forall c, head s = Some c -> isspace c = false) -> lstrip s = s.
Proof.
  destruct s as [|c s]; [reflexivity|]. intros H.
  cbn [lstrip]. now rewrite (H c eq_refl).
Qed.

Lemma rstrip_spec (s : pystr) :
  exists ws, s = rstrip s ++ ws /\ forallb isspace ws = true.
Proof.
  unfold rstrip. destruct (lstrip_spec (rev s)) as (ws & Hs & Hws).
  exists (rev ws). split.
  - rewrite <- rev_app_distr, <- Hs. now rewrite rev_involutive.
  - now rewrite forallb_rev.
Qed.

Lemma rstrip_last (s : pystr) (c : N) :
  last (rstrip s) = Some c -> isspace c = false.
Proof.
  unfold rstrip. rewrite <- head_rev, rev_involutive. apply lstrip_head.
Qed.

Lemma rstrip_spaces (s ws : pystr) :
  forallb isspace ws = true -> rstrip (s ++ ws) = rstrip s.
Proof.
  intros H. unfold rstrip. rewrite rev_app_distr, lstrip_spaces; [reflexivity|].
  now rewrite forallb_rev.
Qed.

Lemma rstrip_id (s : pystr) :
  (forall c, last s = Some c -> isspace c = false) -> rstrip s = s.
Proof.
  intros H. unfold rstrip. rewrite lstrip_id; [apply rev_involutive|].
  intros c. rewrite head_rev. apply H.
Qed.

(** What [strip] removes is white space at the two ends. *)
Lemma strip_spec (s : pystr) :
  exists ws1 ws2,
    s = ws1 ++ strip s ++ ws2
    /\ forallb isspace ws1 = true /\ forallb isspace ws2 = true.
Proof.
  unfold strip. destruct (lstrip_spec s) as (ws1 & Hs1 & Hws1).
  destruct (rstrip_spec (lstrip s)) as (ws2 & Hs2 & Hws2).
  exists ws1, ws2. split; [|now split]. now rewrite <- Hs2.
Qed.

(** What [strip] returns has no white space at either end. *)
Lemma strip_trimmed (s : pystr) : Cases.trimmed (strip s).
Proof.
  split; [|apply rstrip_last].
  intros c Hc. unfold strip in Hc.
  destruct (rstrip_spec (lstrip s)) as (ws & Hs & _).
  apply (lstrip_head s c). rewrite Hs.
  destruct (rstrip (lstrip s)); [discriminate|exact Hc].
Qed.

(** White space around a trimmed text is all that [strip] removes. *)
Lemma strip_surrounded (ws1 s ws2 : pystr) :
  forallb isspace ws1 = true -> forallb isspace ws2 = true ->
  Cases.trimmed s ->
  strip (ws1 ++ s ++ ws2) = s.
Proof.
  intros H1 H2 [Hhead Hlast]. unfold strip. rewrite lstrip_spaces by exact H1.
  destruct s as [|c s].
  - cbn [app]. now rewrite lstrip_all_spaces.
  - rewrite lstrip_id by (intros c'; apply Hhead).
    rewrite rstrip_spaces by exact H2. now apply rstrip_id.
Qed.

End Trimming.

(* ===================================================================== *)
(** ** Occurrences of a marker *)
(* ===================================================================== *)

Section Occurrences.

Lemma find_None_iff (s marker : pystr) :
  Spec.find s marker = None <-> Cases.free_of marker s.
Proof.
  split; [intros H; exact (find_None s marker H)|].
  intros Hfree. destruct (Spec.find s marker) as [i|] eqn:Hfind; [|reflexivity].
  destruct (find_Some _ _ _ Hfind) as [Hocc _]. now apply Hfree in Hocc.
Qed.

Lemma occurs_at_length (marker s : pystr) (j : nat) :
  Spec.occurs_at marker s j -> j + length marker <= length s.
Proof.
  intros (pre & post & -> & <-). rewrite !length_app. lia.
Qed.

Lemma free_of_nil (marker : pystr) : marker <> [] -> Cases.free_of marker [].
Proof.
  intros Hne j H. apply occurs_at_length in H.
  destruct marker; [congruence|]. cbn in H. lia.
Qed.

Lemma occurs_at_inside (marker a s b : pystr) (j : nat) :
  Spec.occurs_at marker s j -> Spec.occurs_at marker (a ++ s ++ b) (length a + j).
Proof.
  intros (pre & post & -> & <-). exists (a ++ pre), (post ++ b).
  split; [now rewrite <- !app_assoc|]. now rewrite length_app.
Qed.

Lemma free_of_inside (marker a s b : pystr) :
  Cases.free_of marker (a ++ s ++ b) -> Cases.free_of marker s.
Proof. intros H j Hj. eapply H, occurs_at_inside, Hj. Qed.

Lemma marker_before_separator (marker post a b : pystr) (c : N) :
  marker ++ post = a ++ c :: b -> c ∉ marker ->
  exists post', a = marker ++ post'.
Proof.
  revert a. induction marker as [|y marker IH]; intros a Heq Hc.
  - now exists a.
  - destruct a as [|x a]; cbn in Heq.
    + injection Heq as -> _. contradict Hc. apply elem_of_cons. now left.
    + injection Heq as -> Heq.
      destruct (IH a Heq) as [post' ->].
      * intros H. apply Hc, elem_of_cons. now right.
      * now exists post'.
Qed.

(** An occurrence of a marker does not run over a character that the
    marker does not contain. *)
Lemma occurs_split (marker a b : pystr) (c : N) (j : nat) :
  c ∉ marker ->
  Spec.occurs_at marker (a ++ c :: b) j ->
  Spec.occurs_at marker a j
  \/ exists j', j = length a + 1 + j' /\ Spec.occurs_at marker b j'.
Proof.
  intros Hc (pre & post & Heq & Hlen). revert pre j Heq Hlen.
  induction a as [|x a IH]; intros pre j Heq Hlen.
  - destruct pre as [|p pre]; cbn in Heq, Hlen; subst j.
    + symmetry in Heq.
      destruct (marker_before_separator marker post [] b c Heq Hc)
        as [post' Hnil].
      left. exists [], post'. now split.
    + injection Heq as _ ->. right. exists (length pre).
      split; [reflexivity|]. now exists pre, post.
  - destruct pre as [|p pre]; cbn in Heq, Hlen; subst j.
    + symmetry in Heq.
      destruct (marker_before_separator marker post (x :: a) b c Heq Hc)
        as [post' Ha].
      left. exists [], post'. now split.
    + injection Heq as -> Heq.
      destruct (IH pre (length pre) Heq eq_refl)
        as [(pre' & post' & -> & Hlen') | (j' & Hj' & Hocc)].
      * left. exists (p :: pre'), post'. split; [reflexivity|].
        cbn. now rewrite Hlen'.
      * right. exists j'. split; [cbn; lia|exact Hocc].
Qed.

Lemma free_of_separated (marker a b : pystr) (c : N) :
  c ∉ marker -> Cases.free_of marker a -> Cases.free_of marker b ->
  Cases.free_of marker (a ++ c :: b).
Proof.
  intros Hc Ha Hb j Hj.
  apply (occurs_split marker a b c j Hc) in Hj as [Hj | (j' & _ & Hj)].
  - now apply Ha in Hj.
  - now apply Hb in Hj.
Qed.

Lemma before_first_free (marker s : pystr) :
  marker <> [] -> Cases.free_of marker (Spec.before_first marker s).
Proof.
  intros Hne. unfold Spec.before_first.
  destruct (Spec.find s marker) as [i|] eqn:Hfind;
    [|exact (find_None s marker Hfind)].
  destruct (find_Some _ _ _ Hfind) as [_ Hmin]. intros j Hj.
  pose proof (occurs_at_length _ _ _ Hj) as Hlen.
  rewrite length_take in Hlen.
  assert (Hocc : Spec.occurs_at marker s j).
  { rewrite <- (take_drop i s).
    apply (occurs_at_inside marker [] (take i s) (drop i s) j) in Hj.
    exact Hj. }
  apply Hmin in Hocc. destruct marker; [congruence|]. cbn in Hlen. lia.
Qed.

(** Where the first occurrence is, when nothing before it is one. *)
Lemma find_at (marker pre post : pystr) :
  (forall j, Spec.occurs_at marker (pre ++ marker ++ post) j ->
     length pre <= j) ->
  Spec.find (pre ++ marker ++ post) marker = Some (length pre).
Proof.
  intros Hmin.
  destruct (Spec.find (pre ++ marker ++ post) marker) as [i|] eqn:Hfind.
  - destruct (find_Some _ _ _ Hfind) as [Hocc Hleast].
    f_equal. apply Nat.le_antisymm.
    + apply Hleast. now exists pre, post.
    + now apply Hmin.
  - exfalso. apply (find_None _ _ Hfind (length pre)). now exists pre, post.
Qed.

Lemma replace_go_skip (old new : pystr) (k : nat) (s : pystr) :
  replace_go old new k s = replace_go old new 0 (drop k s).
Proof.
  revert k. induction s as [|c s IH]; intros [|k]; simpl; try reflexivity.
  apply IH.
Qed.

(** Without an occurrence there is nothing to replace. *)
Lemma replace_free (s old new : pystr) :
  Cases.free_of old s -> replace s old new = s.
Proof.
  intros Hfree. apply find_None_iff in Hfree. unfold replace.
  induction s as [|c s IH]; [reflexivity|].
  cbn [Spec.find] in Hfree. cbn [replace_go].
  destruct (startswith (c :: s) old); [discriminate|].
  destruct (Spec.find s old); [discriminate|].
  now rewrite IH.
Qed.

(** An occurrence at the very start is replaced, and the scan goes on
    after it. *)
Lemma replace_at_start (old new rest : pystr) :
  old <> [] ->
  replace (old ++ rest) old new = new ++ replace rest old new.
Proof.
  intros Hne. unfold replace. destruct old as [|c old]; [congruence|].
  cbn [app replace_go].
  assert (Hstart : startswith (c :: old ++ rest) (c :: old) = true).
  { apply startswith_iff. now exists rest. }
  rewrite Hstart, replace_go_skip.
  replace (length (c :: old) - 1) with (length old) by (cbn; lia).
  now rewrite drop_app_length.
Qed.

End Occurrences.

(* ===================================================================== *)
(** ** More on the output parser *)
(* ===================================================================== *)

Lemma line_feed_not_in_SKILLS : 10%N ∉ Main.SKILLS.
Proof. intros H. unfold Main.SKILLS, str in H. cbn in H. split_elem H. Qed.

Lemma line_feed_not_in_SUMMARY : 10%N ∉ Main.SUMMARY.
Proof. intros H. unfold Main.SUMMARY, str in H. cbn in H. split_elem H. Qed.

Lemma SUMMARY_nonempty : Main.SUMMARY <> [].
Proof. discriminate. Qed.

Lemma SUMMARY_free_of_SKILLS : Cases.free_of Main.SKILLS Main.SUMMARY.
Proof. now apply find_None_iff. Qed.

(** X17: what [parse_chain_output] returns is clean: the summary is not
    empty, neither the summary nor the skills begin or end with white
    space, and the skills do not contain the marker [SKILLS:]. *)
Theorem parsed_output_is_clean (output summary skills : pystr) :
  Main.parse_chain_output output = Ok (summary, skills) ->
  summary <> []
  /\ Cases.trimmed summary
  /\ Cases.trimmed skills
  /\ Cases.free_of Main.SKILLS skills.
Proof.
  rewrite parse_chain_output_eq.
  destruct (Spec.summary_of output) as [|c s] eqn:Hsum; [discriminate|].
  intros [= <- <-]. split; [discriminate|]. split.
  { rewrite <- Hsum. apply strip_trimmed. }
  unfold Spec.skills_between.
  destruct (Spec.after_first Main.SKILLS output) as [rest|].
  - split; [apply strip_trimmed|].
    destruct (strip_spec (Spec.before_first Main.SKILLS rest))
      as (ws1 & ws2 & Hs & _).
    apply (free_of_inside Main.SKILLS ws1 _ ws2). rewrite <- Hs.
    apply before_first_free, SKILLS_nonempty.
  - split; [split; discriminate|]. apply free_of_nil, SKILLS_nonempty.
Qed.

Lemma parsed_output_is_clean_witness :
  Main.parse_chain_output Demo.output_two_markers
  = Ok (str "foo", str "bar")
  /\ Cases.free_of Main.SKILLS (str "bar").
Proof.
  split; [reflexivity|].
  apply (parsed_output_is_clean Demo.output_two_markers (str "foo")
           (str "bar")).
  reflexivity.
Defined.

(** X18: the parser reads back the format that the prompt asks for.  For a
    non-empty summary and skills without white space at their ends, where
    the summary contains neither marker and the skills do not contain
    [SKILLS:], parsing ["SUMMARY:\n<summary>\n\nSKILLS:\n<skills>"] gives
    back the summary and the skills. *)
Theorem parse_formatted (summary skills : pystr) :
  summary <> [] ->
  Cases.trimmed summary -> Cases.trimmed skills ->
  Cases.free_of Main.SUMMARY summary ->
  Cases.free_of Main.SKILLS summary ->
  Cases.free_of Main.SKILLS skills ->
  Main.parse_chain_output (Cases.formatted summary skills)
  = Ok (summary, skills).
Proof.
  intros Hne Htrim Htrim' Hfree1 Hfree2 Hfree3.
  pose proof SKILLS_nonempty as Hskills.
  pose proof SUMMARY_nonempty as Hsummary.
  set (body := 10%N :: summary ++ [10%N; 10%N]).
  set (post := 10%N :: skills).
  assert (Hfmt : Cases.formatted summary skills
                 = (Main.SUMMARY ++ body) ++ Main.SKILLS ++ post).
  { unfold Cases.formatted, body, post. cbn [app].
    rewrite <- !app_assoc. cbn [app]. now rewrite <- !app_assoc. }
  assert (Hfmt' : Cases.formatted summary skills
                  = (Main.SUMMARY ++ 10%N :: summary ++ [10%N])
                    ++ 10%N :: (Main.SKILLS ++ post)).
  { rewrite Hfmt. unfold body. cbn [app].
    rewrite <- !app_assoc. cbn [app]. now rewrite <- !app_assoc. }
  assert (Hlen : length (Main.SUMMARY ++ body)
                 = length (Main.SUMMARY ++ 10%N :: summary ++ [10%N]) + 1).
  { unfold body. rewrite !length_app. cbn [length]. rewrite !length_app.
    cbn [length]. lia. }
  assert (Hfind : Spec.find (Cases.formatted summary skills) Main.SKILLS
                  = Some (length (Main.SUMMARY ++ body))).
  { rewrite Hfmt. apply find_at. rewrite <- Hfmt, Hfmt'. intros j Hj.
    apply (occurs_split _ _ _ _ _ line_feed_not_in_SKILLS) in Hj
      as [Hj | (j' & -> & _)]; [|lia].
    exfalso. revert j Hj.
    apply (free_of_separated _ _ _ _ line_feed_not_in_SKILLS
             SUMMARY_free_of_SKILLS).
    apply (free_of_separated _ _ _ _ line_feed_not_in_SKILLS Hfree2).
    now apply free_of_nil. }
  assert (Hbefore : Spec.before_first Main.SKILLS
                      (Cases.formatted summary skills)
                    = Main.SUMMARY ++ body).
  { unfold Spec.before_first. rewrite Hfind, Hfmt. apply take_app_length. }
  assert (Hafter : Spec.after_first Main.SKILLS
                     (Cases.formatted summary skills) = Some post).
  { unfold Spec.after_first. rewrite Hfind, Hfmt. f_equal.
    rewrite <- length_app, app_assoc. apply drop_app_length. }
  assert (Hsum : Spec.summary_of (Cases.formatted summary skills) = summary).
  { unfold Spec.summary_of. rewrite Hbefore.
    rewrite (replace_at_start _ _ _ Hsummary). cbn [app].
    rewrite replace_free.
    - apply (strip_surrounded [10%N] summary [10%N; 10%N]);
        [reflexivity|reflexivity|exact Htrim].
    - unfold body.
      apply (free_of_separated _ [] _ _ line_feed_not_in_SUMMARY);
        [now apply free_of_nil|].
      apply (free_of_separated _ _ _ _ line_feed_not_in_SUMMARY Hfree1).
      apply (free_of_separated _ [] _ _ line_feed_not_in_SUMMARY);
        now apply free_of_nil. }
  assert (Hsk : Spec.skills_between (Cases.formatted summary skills) = skills).
  { unfold Spec.skills_between. rewrite Hafter. unfold Spec.before_first.
    assert (Hnone : Spec.find post Main.SKILLS = None).
    { apply find_None_iff. unfold post.
      apply (free_of_separated _ [] _ _ line_feed_not_in_SKILLS);
        [now apply free_of_nil|exact Hfree3]. }
    rewrite Hnone. unfold post.
    rewrite <- (app_nil_r skills) at 1.
    apply (strip_surrounded [10%N] skills []);
      [reflexivity|reflexivity|exact Htrim']. }
  rewrite parse_chain_output_eq, Hsum, Hsk. now destruct summary.
Qed.

Lemma parse_formatted_witness :
  Cases.formatted (str "foo") (str "bar,baz") = Demo.output_full
  /\ Main.parse_chain_output (Cases.formatted (str "foo") (str "bar,baz"))
     = Ok (str "foo", str "bar,baz").
Proof.
  split; [reflexivity|].
  apply parse_formatted.
  - discriminate.
  - split; intros c [= <-]; reflexivity.
  - split; intros c [= <-]; reflexivity.
  - now apply find_None_iff.
  - now apply find_None_iff.
  - now apply find_None_iff.
Defined.

(* ===================================================================== *)
(** ** The handler of [app.py] *)
(* ===================================================================== *)

Section LegacyHandler.

Variable sv : Services.

Ltac run_legacy :=
  unfold App.post_check_plagiarism, App.check_plagiarism, Req.bind, Req.lift,
    Req.call, Req.ret.

(** The body that [app.py] returns for [results]. *)
Lemma legacy_post (file : UploadFile) (text output : pystr)
    (results : list scored) :
  Cases.legacy_reaches_decision sv file text output results ->
  App.check_plagiarism sv file []
  = (let st := App.analyze_results results in
     let doc := App.new_doc file (Spec.summary_of output)
                  (Spec.skills_between output) in
     let response :=
       {| status_code := 200;
          content := Json.LegacyData
            {| Json.legacy_plagiarism_detected := Main.plagiarism_detected st;
               Json.legacy_max_score := Main.max_score st;
               Json.legacy_matched_files := Main.matched_files st |} |} in
     let searched :=
       [chain_invoke_called text;
        similarity_search_called (Spec.summary_of output) 3] in
     if Main.plagiarism_detected st then (Ok response, searched)
     else
       match add_documents sv [doc] with
       | Raise e => (Raise e, searched ++ [add_documents_called [doc]])
       | Ok _ =>
           match describe_index_stats sv with
           | Raise e =>
               (Raise e,
                searched ++ [add_documents_called [doc];
                             describe_index_stats_called])
           | Ok _ =>
               (Ok response,
                searched ++ [add_documents_called [doc];
                             describe_index_stats_called])
           end
       end).
Proof.
  intros (Hx & Hc & Hs). run_legacy.
  rewrite Hx, Hc, legacy_parse_inline. cbn [app]. rewrite Hs. cbn zeta.
  destruct (Main.plagiarism_detected (App.analyze_results results));
    cbn [negb]; [reflexivity|].
  destruct (add_documents sv _); [|reflexivity].
  now destruct (describe_index_stats sv).
Qed.

End LegacyHandler.

(** X19: [app.py] checks neither the upload nor the parsed summary: once
    the text is extracted, the chain has answered and the search has
    answered, it searches with whatever summary the output gives, even an
    empty one, and when nothing reaches 0.75 it inserts a document with
    that summary and the upload's file name, even a missing one. *)
Theorem legacy_admits_unchecked (sv : Services) (file : UploadFile)
    (text output : pystr) (results : list scored) :
  Cases.legacy_reaches_decision sv file text output results ->
  Main.plagiarism_detected (App.analyze_results results) = false ->
  add_documents sv
    [App.new_doc file (Spec.summary_of output) (Spec.skills_between output)]
  = Ok tt ->
  describe_index_stats sv = Ok tt ->
  let doc :=
    App.new_doc file (Spec.summary_of output) (Spec.skills_between output) in
  status_code (App.post_check_plagiarism sv file).1 = 200%Z
  /\ (App.post_check_plagiarism sv file).2
     = [chain_invoke_called text;
        similarity_search_called (Spec.summary_of output) 3;
        add_documents_called [doc]; describe_index_stats_called]
  /\ page_content doc = Spec.summary_of output
  /\ dict_get (metadata doc) (str "source_file")
     = match filename file with Some n => PStr n | None => PNone end.
Proof.
  intros H Hd Hadd Hstats. cbn zeta. unfold App.post_check_plagiarism.
  rewrite (legacy_post sv file text output results H). cbn zeta.
  rewrite Hd, Hadd, Hstats. cbn.
  split; [reflexivity|]. split; [reflexivity|]. split; [reflexivity|].
  unfold dict_get. now rewrite lookup_insert_eq.
Qed.

Lemma legacy_admits_unchecked_witness :
  Spec.summary_of Demo.output_empty = []
  /\ filename Demo.upload_unnamed = None
  /\ (App.post_check_plagiarism
        (Demo.services Demo.output_empty [] (Ok tt)) Demo.upload_unnamed).2
     = [chain_invoke_called Demo.page_text;
        similarity_search_called [] 3;
        add_documents_called [App.new_doc Demo.upload_unnamed [] []];
        describe_index_stats_called].
Proof.
  split; [reflexivity|]. split; [reflexivity|].
  refine (proj1 (proj2
            (legacy_admits_unchecked
               (Demo.services Demo.output_empty [] (Ok tt))
               Demo.upload_unnamed Demo.page_text Demo.output_empty []
               _ _ _ _))).
  - repeat split; reflexivity.
  - reflexivity.
  - reflexivity.
  - reflexivity.
Defined.

(** X20: in [app.py] nothing is caught after the decision: when the
    insertion raises, and also when the insertion succeeds but the index
    statistics call raises, the request is answered with status 500 and
    the decision is lost, although in the second case the document is in
    the corpus. *)
Theorem legacy_failure_after_decision (sv : Services) (file : UploadFile)
    (text output : pystr) (results : list scored) (e : exn) :
  Cases.legacy_reaches_decision sv file text output results ->
  Main.plagiarism_detected (App.analyze_results results) = false ->
  is_HTTPException e = false ->
  let doc :=
    App.new_doc file (Spec.summary_of output) (Spec.skills_between output) in
  (add_documents sv [doc] = Raise e ->
   App.post_check_plagiarism sv file
   = ({| status_code := 500; content := Json.ServerError |},
      [chain_invoke_called text;
       similarity_search_called (Spec.summary_of output) 3;
       add_documents_called [doc]]))
  /\ (add_documents sv [doc] = Ok tt -> describe_index_stats sv = Raise e ->
      App.post_check_plagiarism sv file
      = ({| status_code := 500; content := Json.ServerError |},
         [chain_invoke_called text;
          similarity_search_called (Spec.summary_of output) 3;
          add_documents_called [doc]; describe_index_stats_called])).
Proof.
  intros H Hd He. cbn zeta. unfold App.post_check_plagiarism.
  rewrite (legacy_post sv file text output results H). cbn zeta. rewrite Hd.
  split.
  - intros ->. now destruct e.
  - intros -> ->. now destruct e.
Qed.

Lemma legacy_failure_after_decision_witness :
  App.post_check_plagiarism Cases.stats_down Demo.upload
  = ({| status_code := 500; content := Json.ServerError |},
     [chain_invoke_called Demo.page_text;
      similarity_search_called (str "foo") 3;
      add_documents_called [App.new_doc Demo.upload (str "foo") (str "bar,baz")];
      describe_index_stats_called]).
Proof.
  refine (proj2 (legacy_failure_after_decision Cases.stats_down Demo.upload
                   Demo.page_text Demo.output_full Demo.below_threshold
                   (OtherError "stats failed") _ _ _) _ _).
  - repeat split; reflexivity.
  - reflexivity.
  - reflexivity.
  - reflexivity.
  - reflexivity.
Defined.

(* ===================================================================== *)
(** ** The reported score *)
(* ===================================================================== *)







(** The two halfway cases: 0.12345 is reported as 0.1234 and 0.12355 as
    0.1236. *)
Example reported_max_score_halfway :
  (round4 (Main.max_score
             (Main.analyze_results Main.threshold Cases.halfway_down))
   == 0.1234)%Q
  /\ (round4 (Main.max_score
                (Main.analyze_results Main.threshold Cases.halfway_up))
      == 0.1236)%Q.
Proof. split; reflexivity. Qed.

(* ===================================================================== *)
(** ** Start of the application *)
(* ===================================================================== *)

Section Start.

Import Startup.

Variable p : Platform.

Ltac run_startup :=
  unfold main_py, app_py, vector_store_setup, Startup.try_except,
    Startup.bind, Startup.lift, Startup.call, Startup.raise, Startup.ret.

(** With both keys set, [main.py] goes through the setup that [app.py]
    goes through. *)
Lemma main_py_with_keys (t : trace) :
  unset (getenv p (str "OPENAI_API")) = false ->
  unset (getenv p (str "PINECONE_API")) = false ->
  main_py p t = app_py p t.
Proof.
  intros H1 H2. run_startup. rewrite H1, H2.
  destruct (clients p _); [|reflexivity].
  destruct (Pinecone p _); [|reflexivity].
  destruct (has_index p _) as [[]|]; cbn [negb]; try reflexivity.
  - destruct (Index p _); [|reflexivity].
    now destruct (PineconeVectorStore p).
  - destruct (create_index p _ _ _ _ _); [|reflexivity].
    destruct (Index p _); [|reflexivity].
    now destruct (PineconeVectorStore p).
Qed.

Lemma main_py_without_openai_key :
  unset (getenv p (str "OPENAI_API")) = true ->
  main_py p []
  = (Raise (ValueError "OPENAI_API environment variable is required"), []).
Proof. intros H. run_startup. now rewrite H. Qed.

Lemma main_py_without_pinecone_key :
  unset (getenv p (str "OPENAI_API")) = false ->
  unset (getenv p (str "PINECONE_API")) = true ->
  main_py p []
  = (Raise (ValueError "PINECONE_API environment variable is required"), []).
Proof. intros H1 H2. run_startup. now rewrite H1, H2. Qed.

(** The setup, call by call. *)
Lemma app_py_calls :
  app_py p []
  = match clients p (getenv p (str "OPENAI_API")) with
    | Raise e => (Raise e, [])
    | Ok _ =>
        let key := getenv p (str "PINECONE_API") in
        match Pinecone p key with
        | Raise e => (Raise e, [Pinecone_called key])
        | Ok _ =>
            match has_index p index_name with
            | Raise e =>
                (Raise e, [Pinecone_called key; has_index_called index_name])
            | Ok present =>
                let created :=
                  if present then []
                  else [create_index_called index_name 1536 (str "cosine")
                          (str "aws") (str "us-east-1")] in
                match
                  (if present then Ok tt
                   else create_index p index_name 1536 (str "cosine")
                          (str "aws") (str "us-east-1"))
                with
                | Raise e =>
                    (Raise e,
                     [Pinecone_called key; has_index_called index_name]
                       ++ created)
                | Ok _ =>
                    match Index p index_name with
                    | Raise e =>
                        (Raise e,
                         [Pinecone_called key; has_index_called index_name]
                           ++ created ++ [Index_called index_name])
                    | Ok _ =>
                        (PineconeVectorStore p,
                         [Pinecone_called key; has_index_called index_name]
                           ++ created
                           ++ [Index_called index_name;
                               PineconeVectorStore_called])
                    end
                end
            end
        end
    end.
Proof.
  run_startup. cbn zeta.
  destruct (clients p _); [|reflexivity].
  destruct (Pinecone p _); [|reflexivity].
  destruct (has_index p _) as [[]|]; cbn [negb app]; reflexivity.
Qed.

End Start.

(** X22: [main.py] refuses to start without its two keys: when
    [OPENAI_API] is unset or empty it raises a [ValueError] naming it, and
    otherwise when [PINECONE_API] is unset or empty a [ValueError] naming
    that one; in both cases before any client is built and before Pinecone
    is contacted.  [app.py] has no such check: once the clients are
    built it calls Pinecone with whatever [PINECONE_API] holds. *)
Theorem main_py_requires_keys (p : Startup.Platform) :
  (Startup.unset (Startup.getenv p (str "OPENAI_API")) = true ->
   Startup.main_py p []
   = (Raise (ValueError "OPENAI_API environment variable is required"), []))
  /\ (Startup.unset (Startup.getenv p (str "OPENAI_API")) = false ->
      Startup.unset (Startup.getenv p (str "PINECONE_API")) = true ->
      Startup.main_py p []
      = (Raise (ValueError "PINECONE_API environment variable is required"),
         []))
  /\ (Startup.clients p (Startup.getenv p (str "OPENAI_API")) = Ok tt ->
      head (Startup.app_py p []).2
      = Some (Startup.Pinecone_called
                (Startup.getenv p (str "PINECONE_API")))).
Proof.
  split; [|split].
  - apply main_py_without_openai_key.
  - apply main_py_without_pinecone_key.
  - intros Hclients. rewrite app_py_calls, Hclients. cbn zeta.
    destruct (Startup.Pinecone p _); [|reflexivity].
    destruct (Startup.has_index p _) as [present|]; [|reflexivity].
    destruct (if present then _ else _); [|reflexivity].
    now destruct (Startup.Index p _).
Qed.

Lemma main_py_requires_keys_witness :
  Startup.unset
    (Startup.getenv Cases.platform_without_pinecone_key (str "PINECONE_API"))
  = true
  /\ Startup.main_py Cases.platform_without_pinecone_key []
     = (Raise (ValueError "PINECONE_API environment variable is required"),
        [])
  /\ head (Startup.app_py Cases.platform_without_pinecone_key []).2
     = Some (Startup.Pinecone_called None).
Proof.
  split; [reflexivity|]. split.
  - apply (proj1 (proj2
             (main_py_requires_keys Cases.platform_without_pinecone_key)));
      reflexivity.
  - apply (proj2 (proj2
             (main_py_requires_keys Cases.platform_without_pinecone_key))).
    reflexivity.
Defined.

(** X23: while [main.py] starts, the index is created at most once, and
    exactly when the keys are set, the clients are built, Pinecone is
    reached and [has_index] answers that the index does not exist; it is
    then created under the name [plagiarism-detection] with dimension 1536
    and the cosine metric. *)
Theorem index_created_iff_absent (p : Startup.Platform) :
  let calls := (Startup.main_py p []).2 in
  Startup.creations calls <= 1
  /\ (Startup.creations calls = 1
      <-> Startup.unset (Startup.getenv p (str "OPENAI_API")) = false
          /\ Startup.unset (Startup.getenv p (str "PINECONE_API")) = false
          /\ (exists u, Startup.clients p
                          (Startup.getenv p (str "OPENAI_API")) = Ok u)
          /\ (exists u, Startup.Pinecone p
                          (Startup.getenv p (str "PINECONE_API")) = Ok u)
          /\ Startup.has_index p Startup.index_name = Ok false)
  /\ (forall name dimension metric cloud region,
        Startup.create_index_called name dimension metric cloud region
          ∈ calls ->
        name = str "plagiarism-detection" /\ dimension = 1536%Z
        /\ metric = str "cosine").
Proof.
  cbn zeta.
  destruct (Startup.unset (Startup.getenv p (str "OPENAI_API"))) eqn:H1.
  { rewrite (main_py_without_openai_key p H1). cbn.
    split; [lia|]. split; [|intros; split_elem H].
    split; [discriminate|]. intros (H & _). discriminate. }
  destruct (Startup.unset (Startup.getenv p (str "PINECONE_API"))) eqn:H2.
  { rewrite (main_py_without_pinecone_key p H1 H2). cbn.
    split; [lia|]. split; [|intros; split_elem H].
    split; [discriminate|]. intros (_ & H & _). discriminate. }
  rewrite (main_py_with_keys p [] H1 H2), app_py_calls. cbn zeta.
  destruct (Startup.clients p _) as [u1|].
  2:{ cbn. split; [lia|]. split; [|intros; split_elem H].
      split; [discriminate|]. intros (_ & _ & [u H] & _). discriminate. }
  destruct (Startup.Pinecone p _) as [u2|].
  2:{ cbn. split; [lia|]. split; [|intros; split_elem H].
      split; [discriminate|]. intros (_ & _ & _ & [u H] & _). discriminate. }
  destruct (Startup.has_index p _) as [[]|].
  - destruct (Startup.Index p _); cbn;
      (split; [lia|]); (split; [|intros; split_elem H]);
      (split; [discriminate|]); intros (_ & _ & _ & _ & H); discriminate.
  - destruct (Startup.create_index p _ _ _ _ _);
      [destruct (Startup.Index p _)|]; cbn;
      (split; [lia|]);
      (split; [|intros name dimension metric cloud region H; split_elem H;
                 injection H as -> -> -> -> ->; now repeat split]);
      (split; [intros _; repeat split; eauto|reflexivity]).
  - cbn. split; [lia|]. split; [|intros; split_elem H].
    split; [discriminate|]. intros (_ & _ & _ & _ & H). discriminate.
Qed.

(** X24: an exception of a Pinecone call stops the start of [main.py]
    with that same exception, and no later call is made: when [has_index]
    raises, nothing is created or opened; when [create_index] raises, the
    index is never opened. *)
Theorem startup_failure_propagates (p : Startup.Platform) (e : exn) :
  Startup.unset (Startup.getenv p (str "OPENAI_API")) = false ->
  Startup.unset (Startup.getenv p (str "PINECONE_API")) = false ->
  Startup.clients p (Startup.getenv p (str "OPENAI_API")) = Ok tt ->
  Startup.Pinecone p (Startup.getenv p (str "PINECONE_API")) = Ok tt ->
  (Startup.has_index p Startup.index_name = Raise e ->
   Startup.main_py p []
   = (Raise e,
      [Startup.Pinecone_called (Startup.getenv p (str "PINECONE_API"));
       Startup.has_index_called Startup.index_name]))
  /\ (Startup.has_index p Startup.index_name = Ok false ->
      Startup.create_index p Startup.index_name 1536 (str "cosine")
        (str "aws") (str "us-east-1") = Raise e ->
      Startup.main_py p []
      = (Raise e,
         [Startup.Pinecone_called (Startup.getenv p (str "PINECONE_API"));
          Startup.has_index_called Startup.index_name;
          Startup.create_index_called Startup.index_name 1536 (str "cosine")
            (str "aws") (str "us-east-1")])).
Proof.
  intros H1 H2 Hclients Hpinecone.
  rewrite (main_py_with_keys p [] H1 H2), app_py_calls, Hclients. cbn zeta.
  rewrite Hpinecone. split.
  - now intros ->.
  - intros -> Hcreate. now rewrite Hcreate.
Qed.

Lemma startup_failure_propagates_witness :
  Startup.has_index Cases.platform_unreachable Startup.index_name
  = Raise (OtherError "unreachable")
  /\ Startup.main_py Cases.platform_unreachable []
     = (Raise (OtherError "unreachable"),
        [Startup.Pinecone_called (Some (str "pc-1"));
         Startup.has_index_called Startup.index_name]).
Proof.
  split; [reflexivity|].
  apply (startup_failure_propagates Cases.platform_unreachable
           (OtherError "unreachable")); reflexivity.
Defined.

Lemma index_created_iff_absent_witness :
  Startup.creations (Startup.main_py (Cases.platform false) []).2 = 1
  /\ Startup.creations (Startup.main_py (Cases.platform true) []).2 = 0.
Proof.
  split; [|reflexivity].
  apply (proj1 (proj2 (index_created_iff_absent (Cases.platform false)))).
  repeat split; try reflexivity; now exists tt.
Defined.
